(** * A variational Monte Carlo core: wavefunction model, Metropolis sampler
      and orchestrator

    A shallow embedding of
    - [qs/models/vmc.py]      (class [VMC], the Gaussian trial wavefunction),
    - [samplers/metropolis.py] (class [Metropolis], the random-walk sampler),
    - [qs/quantum_state.py]   (class [QS], the orchestrator),
    followed by the properties of the code that the specification states.

    Conventions.
    - float64 values are modelled by exact rationals ([Qc], canonical
      fractions, so that equal numbers are equal terms).  Rounding is not
      modelled, and neither are overflow, infinities and NaN: the statements
      are about finite values.
    - A generator is modelled by its state, which a draw returns advanced.
      Where it matters that generators are objects that calls can share,
      the sampler is run on a store of generator objects ([Shared]).
    - A 1-d array is a list, a 2-d array a list of rows.  An array with no
      rows does not remember its number of columns.
    - A Python call that may raise returns a [result]. *)

From stdpp Require Import base list numbers strings gmap.
From Stdlib Require Import QArith Qcanon ZArith Lia.

Local Open Scope Qc_scope.

(** ** Python exceptions and fallible calls *)

Inductive exn : Type :=
  | ValueError        (* raise ValueError(...) *)
  | TypeError         (* wrong arity of a call, [None] where a number is needed *)
  | AttributeError    (* reading an attribute that was never assigned *)
  | IndexError        (* a[i] with i out of range *)
  | KeyError          (* a missing parameter name *)
  | ShapeError        (* numpy/jax: operands or reshape target of incompatible shape *)
  | NotInitialized.   (* qs.utils.errors.NotInitialized *)

Inductive result (A : Type) : Type :=
  | Ok (a : A)
  | Raise (e : exn).
Arguments Ok {A} a.
Arguments Raise {A} e.

Global Instance exn_eq_dec : EqDecision exn.
Proof. solve_decision. Defined.

Global Instance result_eq_dec {A} `{EqDecision A} : EqDecision (result A).
Proof. solve_decision. Defined.

Global Instance result_ret : MRet result := λ A, Ok.
Global Instance result_bind : MBind result := λ A B f m,
  match m with Ok a => f a | Raise e => Raise e end.

Global Instance result_fmap : FMap result := λ A B f m,
  match m with Ok a => Ok (f a) | Raise e => Raise e end.

Definition raises {A} (m : result A) : Prop := ∃ e, m = Raise e.

Definition or_raise {A} (e : exn) (o : option A) : result A :=
  match o with Some a => Ok a | None => Raise e end.

Fixpoint mapR {A B} (f : A → result B) (l : list A) : result (list B) :=
  match l with
  | [] => Ok []
  | a :: l => b ← f a; bs ← mapR f l; Ok (b :: bs)
  end.

(** ** Numbers that code can be traced with

    The closures of [VMC] are written once and are run on floats, and by
    [jax.grad] / [jax.hessian] on tracers that carry derivatives.  [Num] is
    the arithmetic both have. *)

Class Num (A : Type) : Type := {
  n_const : Qc → A;
  n_add : A → A → A;
  n_sub : A → A → A;
  n_mul : A → A → A;
  n_opp : A → A;
}.

Global Instance Qc_Num : Num Qc := {
  n_const c := c;
  n_add := Qcplus;
  n_sub := Qcminus;
  n_mul := Qcmult;
  n_opp := Qcopp;
}.

(** Forward-mode tracer: a value and its derivative along one direction. *)
Record Dual (A : Type) : Type := mkDual { primal : A; tangent : A }.
Arguments mkDual {A} primal tangent.
Arguments primal {A} d.
Arguments tangent {A} d.

Global Instance Dual_Num {A} `{Num A} : Num (Dual A) := {
  n_const c := mkDual (n_const c) (n_const 0);
  n_add x y := mkDual (n_add (primal x) (primal y)) (n_add (tangent x) (tangent y));
  n_sub x y := mkDual (n_sub (primal x) (primal y)) (n_sub (tangent x) (tangent y));
  n_mul x y := mkDual (n_mul (primal x) (primal y))
                 (n_add (n_mul (primal x) (tangent y)) (n_mul (tangent x) (primal y)));
  n_opp x := mkDual (n_opp (primal x)) (n_opp (tangent x));
}.

(** [x ** n] for a literal exponent. *)
Fixpoint n_pow {A} `{Num A} (x : A) (n : nat) : A :=
  match n with
  | O => n_const 1
  | S O => x
  | S n => n_mul x (n_pow x n)
  end.

(** ** Arrays *)

Module Np.

Abbreviation Vector A := (list A).
Abbreviation Matrix A := (list (list A)).

(** The result of an array expression whose rank depends on the path taken. *)
Inductive ndarray : Type :=
  | Arr1 (v : list Qc)
  | Arr2 (m : list (list Qc)).

Global Instance ndarray_eq_dec : EqDecision ndarray.
Proof. solve_decision. Defined.

(** [m.shape == (n, d)] *)
Definition has_shape {A} (n d : nat) (m : Matrix A) : Prop :=
  length m = n ∧ Forall (λ row, length row = d) m.

(** [np.sum(v)] *)
Definition vsum {A} `{Num A} (v : Vector A) : A := foldr n_add (n_const 0) v.

(** [np.sum(m, axis=1)] *)
Definition sum_axis1 {A} `{Num A} (m : Matrix A) : Vector A := map vsum m.

(** [np.sum(m)] of a 2-d array *)
Definition msum {A} `{Num A} (m : Matrix A) : A := vsum (concat m).

(** [m ** 2] *)
Definition msquare {A} `{Num A} (m : Matrix A) : Matrix A :=
  map (map (λ x, n_pow x 2)) m.

(** The rows of a flat buffer read as [n] rows of [d] columns. *)
Definition rows_of {A} (n d : nat) (flat : list A) : Matrix A :=
  map (λ i, take d (drop (i * d) flat)) (seq 0 n).

(** [a.reshape(-1, d)] on the flat buffer of [a]: the row count is
    inferred; it cannot be when [d = 0] or [d] does not divide the size. *)
Definition reshape_infer {A} (d : nat) (flat : list A) : result (Matrix A) :=
  if decide (d = 0%nat) then Raise ShapeError
  else if decide ((length flat `mod` d)%nat = 0%nat)
       then Ok (rows_of (length flat `div` d)%nat d flat)
       else Raise ShapeError.

(** [a.reshape(n, d)] on the flat buffer of [a]. *)
Definition reshape {A} (n d : nat) (flat : list A) : result (Matrix A) :=
  if decide (length flat = (n * d)%nat) then Ok (rows_of n d flat)
  else Raise ShapeError.

(** Elementwise binary operation on 1-d arrays with numpy broadcasting. *)
Definition broadcast2 {A B C} (f : A → B → C) (x : list A) (y : list B)
  : result (list C) :=
  if decide (length x = length y) then Ok (zip_with f x y)
  else match x, y with
       | [a], _ => Ok (map (f a) y)
       | _, [b] => Ok (map (λ a, f a b) x)
       | _, _ => Raise ShapeError
       end.

Definition ncols {A} (m : Matrix A) : nat :=
  match m with [] => 0%nat | row :: _ => length row end.

(** [m.T] *)
Definition transpose {A} (m : Matrix A) : Matrix A :=
  map (λ j, omap (λ row, row !! j) m) (seq 0 (ncols m)).

Definition dot (x y : Vector Qc) : Qc := vsum (zip_with Qcmult x y).

(** [np.matmul(a, b)] of 2-d arrays *)
Definition matmul (a b : Matrix Qc) : result (Matrix Qc) :=
  if decide (Forall (λ row, length row = length b) a)
  then Ok (map (λ row, map (λ col, dot row col) (transpose b)) a)
  else Raise ShapeError.

(** A boolean read as a number. *)
Definition of_bool (b : bool) : Qc := if b then 1 else 0.

(** [np.where(cond, x, y)] with [cond] 2-d and [x], [y] 1-d. *)
Definition where_ (cond : Matrix bool) (x y : Vector Qc) : result (Matrix Qc) :=
  xy ← broadcast2 pair x y;
  mapR (λ crow, broadcast2 (λ (c : bool) (p : Qc * Qc), if c then p.1 else p.2) crow xy)
       cond.

(** [np.trace(m)] *)
Definition trace (m : Matrix Qc) : Qc :=
  vsum (imap (λ i row, default 0 (row !! i)) m).

End Np.
Import Np.

(** ** Automatic differentiation

    [jax.grad] and [jax.hessian] return the partial derivatives of the traced
    function.  The derivative along one coordinate is read off a [Dual] run;
    a second derivative off a run on duals of duals. *)

Module Jax.

(** The tracer input that varies coordinate [(a, b)] of [r]. *)
Definition seed {A} `{Num A} (r : Matrix A) (a b : nat) : Matrix (Dual A) :=
  imap (λ i row,
    imap (λ j x, mkDual x (n_const (if decide (i = a ∧ j = b) then 1 else 0))) row) r.

(** A value that the differentiated argument does not reach. *)
Definition lift {A} `{Num A} (r : Matrix A) : Matrix (Dual A) :=
  map (map (λ x, mkDual x (n_const 0))) r.

(** The coordinates of a 2-d array in row-major order. *)
Definition coords {A} (r : Matrix A) : list (nat * nat) :=
  concat (imap (λ a row, imap (λ b _, (a, b)) row) r).

(** [jax.grad(f)(r)] for a scalar [f] of a 2-d array. *)
Definition grad (f : ∀ A, Num A → Matrix A → A) (r : Matrix Qc) : Matrix Qc :=
  imap (λ a row, imap (λ b _, tangent (f _ _ (seed r a b))) row) r.

(** The flat buffer of [jax.hessian(f)(r)] for [f] from a 2-d to a 1-d array:
    shape [f(r).shape + r.shape + r.shape]. *)
Definition hessian (f : ∀ A, Num A → Matrix A → Vector A) (r : Matrix Qc) : list Qc :=
  concat (map (λ k,
    concat (map (λ ab,
      map (λ ce, tangent (tangent (default (n_const 0)
                   (f _ _ (seed (seed r ab.1 ab.2) ce.1 ce.2) !! k))))
          (coords r))
      (coords r)))
    (seq 0 (length (f _ _ r)))).

End Jax.

(** ** Chain state ([qs.utils.State]) *)

Record State : Type := mkState {
  positions : Matrix Qc;
  logp : ndarray;
  n_accepted : Z;
  delta : Z;
}.

Global Instance State_eq_dec : EqDecision State.
Proof. solve_decision. Defined.

(** ** Library calls whose code is outside the repository *)

(** [jax.random]: the draw of [random.normal(subkey, (n, d))] where [subkey]
    comes from splitting [random.PRNGKey(seed)]. *)
Class JaxRandom : Type := {
  initial_normal : Z → nat → nat → Matrix Qc;
}.

(** [random.PRNGKey(seed)] takes an integer; [None], the default seed of
    both constructors, is refused with a TypeError. *)
Definition PRNGKey (seed : option Z) : result Z := or_raise TypeError seed.

(** ** The wavefunction model ([class VMC]) *)

Inductive Backend : Type := numpy | jax.

Module VMC.

Record t : Type := mk {
  backend : Backend;              (* which module [self.backend] is *)
  params : gmap string (list Qc); (* [Parameter]: name to array *)
  beta : option Qc;               (* set only when a truthy beta is given *)
  _seed : Z;
  _N : nat;
  _dim : nat;
  state : option State;           (* [None] for the placeholder [0] *)
}.

(** [self.params.get("alpha")]: the array of one element that
    [_initialize_variational_params] stores, used as a scalar by
    broadcasting. *)
Definition get_alpha (params : gmap string (list Qc)) : result Qc :=
  arr ← or_raise KeyError (params !! "alpha");
  match arr with [a] => Ok a | _ => Raise ShapeError end.

(** [self_backend] is the attribute [self.backend] as the method finds it:
    [None] while it was never assigned. *)
Definition _configure_backend (self_backend : option Backend) (backend : string)
    : result Backend :=
  if decide (backend = "numpy") then Ok numpy
  else if decide (backend = "jax") then Ok jax
  else
    (* [raise ValueError(f"Backend {self.backend} not supported")]: the
       message is built first, and it reads [self.backend] *)
    _ ← or_raise AttributeError self_backend;
    Raise ValueError.

(** Truth value of the [alpha] / [beta] argument: a float or [None]. *)
Definition truthy (x : option Qc) : bool :=
  match x with
  | Some a => bool_decide (a ≠ 0)
  | None => false
  end.

Definition _initialize_variational_params (alpha : option Qc) : gmap string (list Qc) :=
  match alpha with
  | Some a => if truthy alpha then {[ "alpha" := [a] ]}
              else {[ "alpha" := [Q2Qc (1 # 2)] ]}
  | None => {[ "alpha" := [Q2Qc (1 # 2)] ]}
  end.

Definition wf_closure {A} `{Num A} (r : Matrix A) (alpha : A) : Vector A :=
  map (λ s, n_mul (n_opp alpha) s) (sum_axis1 (msquare r)).

Definition wf (self : t) (r : Matrix Qc) : result (Vector Qc) :=
  alpha ← get_alpha (params self);
  Ok (wf_closure r alpha).

(** [r[:, 0]]: the first coordinate of every particle. *)
Definition first_column {A} (r : Matrix A) : result (Vector A) :=
  mapR (λ row, or_raise IndexError (row !! 0%nat)) r.

(** The log amplitude for the elliptic trap: [self.beta] is read first, the
    sum over [r[:, 0] ** 2] has no axis and so runs over all particles. *)
Definition wf_closure_eo (self : t) (r : Matrix Qc) (alpha : Qc) : result (Vector Qc) :=
  beta ← or_raise AttributeError (beta self);
  x ← first_column r;
  let sum_x2 := vsum (map (λ x, n_pow x 2) x) in
  let rest := sum_axis1 (msquare (map (drop 1) r)) in
  Ok (map (λ s, - alpha * (beta ^ 2 * sum_x2 + s)) rest).

Definition wf_eo (self : t) (r : Matrix Qc) : result (Vector Qc) :=
  alpha ← get_alpha (params self);
  wf_closure_eo self r alpha.

Definition prob_closure {A} `{Num A} (r : Matrix A) (alpha : A) : Vector A :=
  let log_psi := wf_closure r alpha in
  map (n_mul (n_const 2)) log_psi.

Definition prob (self : t) (r : Matrix Qc) : result (Vector Qc) :=
  alpha ← get_alpha (params self);
  Ok (prob_closure r alpha).

Definition grad_wf_closure (r : Matrix Qc) (alpha : Qc) : Matrix Qc :=
  map (map (λ x, - 2 * alpha * x)) r.

Definition grad_wf_closure_jax (r : Matrix Qc) (alpha : Qc) : Matrix Qc :=
  Jax.grad (λ A _ positions, vsum (wf_closure positions (n_const alpha))) r.

(** The attribute [self.grad_wf_closure]: [_configure_backend] rebinds it for jax. *)
Definition bound_grad_wf_closure (self : t) : Matrix Qc → Qc → Matrix Qc :=
  match backend self with
  | numpy => grad_wf_closure
  | jax => grad_wf_closure_jax
  end.

Definition grad_wf (self : t) (r : Matrix Qc) : result (Matrix Qc) :=
  alpha ← get_alpha (params self);
  Ok (bound_grad_wf_closure self r alpha).

(** The argument [alpha] of the parameter gradients: a 0-d value, or the 1-d
    array of one element that [params] holds.  In a product with a 1-d array
    the two give the same by broadcasting; a derivative in [alpha] has the
    shape of [alpha]. *)
Inductive alpha_array : Type :=
  | Alpha0d (a : Qc)
  | Alpha1d (a : Qc).

Definition alpha_value (alpha : alpha_array) : Qc :=
  match alpha with Alpha0d a | Alpha1d a => a end.

(** [r] is a batch of configurations, shape (batch, N, dim). *)
Definition grads_closure (r : list (Matrix Qc)) (alpha : alpha_array) : ndarray :=
  Arr1 (map (λ conf, vsum (map Qcopp (sum_axis1 (msquare conf)))) r).

(** [jax.vmap] over the batch of [single_grad], the derivative in [alpha]
    of the summed log amplitude: shape [(batch,) + alpha.shape]. *)
Definition grads_closure_jax (r : list (Matrix Qc)) (alpha : alpha_array) : ndarray :=
  let single_grad pos :=
    tangent (vsum (wf_closure (Jax.lift pos) (mkDual (alpha_value alpha) 1))) in
  match alpha with
  | Alpha0d _ => Arr1 (map single_grad r)
  | Alpha1d _ => Arr2 (map (λ pos, [single_grad pos]) r)
  end.

Definition bound_grads_closure (self : t) : list (Matrix Qc) → alpha_array → ndarray :=
  match backend self with
  | numpy => grads_closure
  | jax => grads_closure_jax
  end.

Definition grads (self : t) (r : list (Matrix Qc)) : result ndarray :=
  alpha ← get_alpha (params self);
  (* [self.params.get("alpha")] is the 1-d array *)
  Ok (bound_grads_closure self r (Alpha1d alpha)).

Definition of_nat (n : nat) : Qc := Qc_of_Z (Z.of_nat n).

(** The analytic Laplacian. *)
Definition laplacian_closure (self : t) (r : Matrix Qc) (alpha : Qc) : result Qc :=
  r ← reshape_infer (_dim self) (concat r);
  let d := _dim self in              (* [r.shape[1]] of the reshaped array *)
  let r2 := sum_axis1 (msquare r) in
  let laplacian := map (λ s, Qc_of_Z 4 * alpha ^ 2 * s - 2 * alpha * of_nat d) r2 in
  Ok (msum (map (λ x, [x]) laplacian)).

(** The Laplacian by automatic differentiation. *)
Definition laplacian_closure_jax (self : t) (r : Matrix Qc) (alpha : Qc) : result Qc :=
  let d := _dim self in
  r ← reshape 1 d (concat r);
  (* [hessian_psi(r)] differentiates [self.wf], which reads the stored alpha *)
  a ← get_alpha (params self);
  hess ← reshape d d (Jax.hessian (λ A _ x, wf_closure x (n_const a)) r);
  let first_term := trace hess in
  let second_term := msum (msquare (bound_grad_wf_closure self r alpha)) in
  Ok (first_term + second_term).

(** The attribute [self.laplacian_closure]: [_configure_backend] rebinds it for jax. *)
Definition bound_laplacian_closure (self : t) : Matrix Qc → Qc → result Qc :=
  match backend self with
  | numpy => laplacian_closure self
  | jax => laplacian_closure_jax self
  end.

Definition laplacian (self : t) (r : Matrix Qc) : result Qc :=
  alpha ← get_alpha (params self);
  bound_laplacian_closure self r alpha.

(** Attribute assignments [self._N = ...; self._dim = ...] and [self.state = ...]. *)
Definition set_dims (self : t) (nparticles dim : nat) : t :=
  mk (backend self) (params self) (beta self) (_seed self) nparticles dim (state self).

Definition set_state (self : t) (s : option State) : t :=
  mk (backend self) (params self) (beta self) (_seed self) (_N self) (_dim self) s.

Definition _initialize_vars `{JaxRandom} (self : t) (nparticles dim : nat) : result t :=
  let self := set_dims self nparticles dim in
  let initial_positions := initial_normal (_seed self) nparticles dim in
  a ← get_alpha (params self);
  let initial_logp := prob_closure initial_positions a in
  Ok (set_state self (Some (mkState initial_positions (Arr1 initial_logp) 0 0))).

Definition __init__ `{JaxRandom} (nparticles dim : nat) (seed : option Z)
    (backend : string) (alpha beta : option Qc) : result t :=
  (* the first statement of the constructor: no attribute is assigned yet *)
  b ← _configure_backend None backend;
  seed ← PRNGKey seed;
  let params := if truthy alpha then _initialize_variational_params alpha
                else _initialize_variational_params None in
  let beta := if truthy beta then beta else None in
  self ← _initialize_vars (mk b params beta seed nparticles 0 None) nparticles dim;
  (* [self.state = 0] *)
  Ok (set_state self None).

End VMC.

(** [numpy]: the generator objects made by [default_rng] (or by the factory
    the caller passes as [rng]), with the two draws the sampler makes, and
    [np.exp].  A draw returns the values and the generator after the draw. *)
Class NumpyLib : Type := {
  Generator : Type;
  default_rng : Z → Generator;
  (* [rng.normal(loc=loc, scale=scale)]: one value per entry of [loc] *)
  gen_normal : Generator → Matrix Qc → Qc → Matrix Qc * Generator;
  (* [rng.random(n)]: [n] values in [0, 1) *)
  gen_random : Generator → nat → Vector Qc * Generator;
  np_exp : Qc → Qc;
  gen_random_length : ∀ g n, length (gen_random g n).1 = n;
  gen_normal_length : ∀ g loc scale, length (gen_normal g loc scale).1 = length loc;
  gen_normal_shape : ∀ g loc scale n d,
    has_shape n d loc → has_shape n d (gen_normal g loc scale).1;
}.

(** The base class [samplers.sampler.Sampler] and [qs.utils]: what the
    base constructor leaves in the attributes [Metropolis] reads, and the
    derivation of the per-step seed.  Neither is among the sources.
    [advance_PRNG_state] is a function of its two arguments, as the
    specification has the per-step stream derived from the seed and the
    step index. *)
Record Sampler `{NumpyLib} : Type := mkSampler {
  _rng : Z → Generator;
  scale : Qc;
  _backend : string;
}.

Class SamplerLib `{NumpyLib} : Type := {
  Sampler__init__ : (Z → Generator) → Qc → string → result Sampler;
  advance_PRNG_state : Z → Z → Z;
}.

(** Modelled from the spec: the constructor of the base class [Sampler]
    ([samplers/sampler.py]), which [Metropolis.__init__] calls before its
    dispatch.  The specification makes an unsupported back end name an
    InvalidConfigChoice error that is raised at setup time, and knows two
    back ends; the constructor keeps the generator factory, the scale and the
    name for the attributes that [Metropolis] reads. *)
Definition Sampler__init__spec `{NumpyLib} (rng : Z → Generator) (scale : Qc)
    (backend : string) : result Sampler :=
  if decide (backend = "numpy" ∨ backend = "jax") then Ok (mkSampler _ rng scale backend)
  else Raise ValueError.

Definition spec_sampler_lib `{NumpyLib} (advance_PRNG_state : Z → Z → Z) : SamplerLib :=
  {| Sampler__init__ := Sampler__init__spec;
     advance_PRNG_state := advance_PRNG_state |}.

(** ** The random-walk sampler ([class Metropolis]) *)

Module Metropolis.

Inductive accept_impl : Type := accept_numpy_fn | accept_jax_fn.

Record t `{NumpyLib} : Type := mk {
  _seed : Z;
  _N : nat;
  _dim : nat;
  _log : bool;
  alg_inst : VMC.t;
  base : Sampler;                   (* attributes set by [super().__init__] *)
  accept_fn : option accept_impl;   (* [None]: the attribute was never bound *)
  stdout : list string;             (* what [print] wrote *)
}.

Definition __init__ `{SamplerLib} (alg_inst : VMC.t) (rng : Z → Generator) (scale : Qc)
    (n_particles dim : nat) (seed : Z) (log : bool) (backend : string) : result t :=
  base ← Sampler__init__ rng scale backend;
  if decide (_backend base = "numpy") then
    Ok (mk _ seed n_particles dim log alg_inst base (Some accept_numpy_fn) [])
  else if decide (_backend base = "jax") then
    Ok (mk _ seed n_particles dim log alg_inst base (Some accept_jax_fn) [])
  else
    Ok (mk _ seed n_particles dim log alg_inst base None ["back end not supported !!!!!!"]).

(** [for x in l: acc = f(acc, x)], stopping at the first exception. *)
Fixpoint foldlR {A B} (f : B → A → result B) (acc : B) (l : list A) : result B :=
  match l with
  | [] => Ok acc
  | a :: l => acc ← f acc a; foldlR f acc l
  end.

(** [if a:] for an array [a]: defined for one element only. *)
Definition truth_value (a : list bool) : result bool :=
  match a with [b] => Ok b | _ => Raise ValueError end.

(** [m[i] = row] *)
Definition assign_row (m : Matrix Qc) (i : nat) (row : Vector Qc) : result (Matrix Qc) :=
  old ← or_raise IndexError (m !! i);
  if decide (length row = length old) then Ok (<[i := row]> m)
  else match row with
       | [x] => Ok (<[i := replicate (length old) x]> m)
       | _ => Raise ShapeError
       end.

(** [v[i] = x] *)
Definition assign_item (v : Vector Qc) (i : nat) (x : Qc) : result (Vector Qc) :=
  if decide (i < length v)%nat then Ok (<[i := x]> v) else Raise IndexError.

Definition zeros_like (m : Matrix Qc) : Matrix Qc := map (map (λ _, 0)) m.

Definition accept_numpy_body (accept : Matrix bool)
    (initial_positions proposed_positions : Matrix Qc)
    (log_psi_current log_psi_proposed : Vector Qc)
    (acc : Matrix Qc * Vector Qc * Z) (i : nat) : result (Matrix Qc * Vector Qc * Z) :=
  let '(new_positions, new_logp, n_accepted) := acc in
  a ← or_raise IndexError (accept !! i);
  a ← truth_value a;
  if (a : bool) then
    let n_accepted := (n_accepted + 1)%Z in
    row ← or_raise IndexError (proposed_positions !! i);
    new_positions ← assign_row new_positions i row;
    lp ← or_raise IndexError (log_psi_proposed !! i);
    new_logp ← assign_item new_logp i lp;
    Ok (new_positions, new_logp, n_accepted)
  else
    row ← or_raise IndexError (initial_positions !! i);
    new_positions ← assign_row new_positions i row;
    lp ← or_raise IndexError (log_psi_current !! i);
    new_logp ← assign_item new_logp i lp;
    Ok (new_positions, new_logp, n_accepted).

Definition accept_numpy (n_accepted : Z) (accept : Matrix bool)
    (initial_positions proposed_positions : Matrix Qc)
    (log_psi_current log_psi_proposed : Vector Qc) : result (Matrix Qc * ndarray * Z) :=
  let new_positions := zeros_like initial_positions in
  let new_logp := map (λ _, 0) log_psi_current in
  acc ← foldlR (accept_numpy_body accept initial_positions proposed_positions
                  log_psi_current log_psi_proposed)
               (new_positions, new_logp, n_accepted) (seq 0 (length initial_positions));
  Ok (acc.1.1, Arr1 acc.1.2, acc.2).

(** Elementwise binary operation on 2-d arrays with numpy broadcasting. *)
Definition broadcast2_rows (f : Qc → Qc → Qc) (a b : Matrix Qc) : result (Matrix Qc) :=
  if decide (length a = length b) then mapR (λ p, broadcast2 f p.1 p.2) (zip a b)
  else match a, b with
       | [x], _ => mapR (broadcast2 f x) b
       | _, [y] => mapR (λ x, broadcast2 f x y) a
       | _, _ => Raise ShapeError
       end.

Definition accept_jax (n_accepted : Z) (accept : Matrix bool)
    (initial_positions proposed_positions : Matrix Qc)
    (log_psi_current log_psi_proposed : Vector Qc) : result (Matrix Qc * ndarray * Z) :=
  let acceptT := transpose (map (map of_bool) accept) in
  support1 ← matmul acceptT proposed_positions;
  support2 ← matmul (map (map (λ a, 1 - a)) acceptT) initial_positions;
  new_positions ← broadcast2_rows Qcplus support1 support2;
  let n_accepted := Z.of_nat (length (filter (λ b, b = true) (concat accept))) in
  new_logp ← where_ accept log_psi_proposed log_psi_current;
  Ok (new_positions, Arr2 new_logp, n_accepted).

Definition run_accept (fn : accept_impl) :=
  match fn with
  | accept_numpy_fn => accept_numpy
  | accept_jax_fn => accept_jax
  end.

Section step.
Context `{SamplerLib}.

(** Lines 37-44 of [step]: the generator of this step and the proposal. *)
Definition propose (self : t) (state : State) (seed : Z) : Matrix Qc * Generator :=
  let initial_positions := positions state in
  let next_gen := advance_PRNG_state seed (delta state) in
  let rng := _rng (base self) next_gen in
  gen_normal rng initial_positions (scale (base self)).

(** Lines 37-66 of [step]: the proposal, both log densities and the
    accept mask of shape (N, 1). *)
Definition decide_accept (self : t) (wf_squared : Matrix Qc → result (Vector Qc))
    (state : State) (seed : Z)
    : result (Matrix Qc * Vector Qc * Vector Qc * Matrix bool) :=
  let initial_positions := positions state in
  let '(proposed_positions, rng) := propose self state seed in
  prob_current ← wf_squared initial_positions;
  prob_proposed ← wf_squared proposed_positions;
  log_accept_prob ← broadcast2 Qcminus prob_proposed prob_current;
  let '(u, rng) := gen_random rng (length initial_positions) in
  accept ← broadcast2 (λ u p, bool_decide (u < p)) u (map np_exp log_accept_prob);
  let accept := map (λ b, [b]) accept in
  Ok (proposed_positions, prob_current, prob_proposed, accept).

Definition step (self : t) (n_accepted : Z) (wf_squared : Matrix Qc → result (Vector Qc))
    (state : State) (seed : Z) : result State :=
  let initial_positions := positions state in
  d ← decide_accept self wf_squared state seed;
  let '(proposed_positions, prob_current, prob_proposed, accept) := d in
  accept_fn ← or_raise AttributeError (accept_fn self);
  new ← run_accept accept_fn n_accepted accept initial_positions proposed_positions
           prob_current prob_proposed;
  let '(new_positions, new_logp, n_accepted) := new in
  Ok (mkState new_positions new_logp n_accepted (delta state + 1)).

End step.

End Metropolis.

(** ** Generator objects

    A numpy [Generator] is an object: a draw advances it in place, and every
    holder of a reference sees the advance.  The factory [self._rng] is a
    callable: it may return a reference to a new object, as [default_rng]
    does, or to an object that exists already.  [Shared] runs [step] on a
    store of generator objects, where what a step owes to the objects made
    before it can be stated. *)

Module Shared.

Abbreviation ref := nat.
Abbreviation store := (gmap nat Generator).

Section store.
Context `{SamplerLib}.

(** A call: its outcome and the store it leaves, also when it raises. *)
Definition M (A : Type) : Type := store → result A * store.

Definition ret {A} (a : A) : M A := λ σ, (Ok a, σ).

Definition bind {A B} (m : M A) (k : A → M B) : M B :=
  λ σ, match m σ with
       | (Ok a, σ') => k a σ'
       | (Raise e, σ') => (Raise e, σ')
       end.

(** A computation that does not touch the store. *)
Definition pure {A} (r : result A) : M A := λ σ, (r, σ).

(** A factory in the manner of [default_rng]: every call makes a new object,
    in the state [g seed]. *)
Definition new_generator (g : Z → Generator) (seed : Z) : M ref :=
  λ σ, let l := fresh (dom σ) in (Ok l, <[l := g seed]> σ).

(** [rng.normal(loc=loc, scale=scale)] on the object at [l]; a reference
    always points to an object, the other case makes the function total. *)
Definition normal (l : ref) (loc : Matrix Qc) (scale : Qc) : M (Matrix Qc) :=
  λ σ, match σ !! l with
       | Some g => let '(x, g') := gen_normal g loc scale in (Ok x, <[l := g']> σ)
       | None => (Raise AttributeError, σ)
       end.

(** [rng.random(n)] on the object at [l]. *)
Definition random (l : ref) (n : nat) : M (Vector Qc) :=
  λ σ, match σ !! l with
       | Some g => let '(u, g') := gen_random g n in (Ok u, <[l := g']> σ)
       | None => (Raise AttributeError, σ)
       end.

(** The attributes of the sampler that [step] reads. *)
Record t : Type := mk {
  _rng : Z → M ref;   (* the factory *)
  scale : Qc;
  accept_fn : option Metropolis.accept_impl;
}.

(** Lines 37-44 of [step]. *)
Definition propose (self : t) (state : State) (seed : Z) : M (ref * Matrix Qc) :=
  let initial_positions := positions state in
  let next_gen := advance_PRNG_state seed (delta state) in
  bind (_rng self next_gen) (λ rng,
  bind (normal rng initial_positions (scale self)) (λ proposed_positions,
  ret (rng, proposed_positions))).

(** Lines 37-66 of [step]. *)
Definition decide_accept (self : t) (wf_squared : Matrix Qc → result (Vector Qc))
    (state : State) (seed : Z) : M (Matrix Qc * Vector Qc * Vector Qc * Matrix bool) :=
  let initial_positions := positions state in
  bind (propose self state seed) (λ p,
  let '(rng, proposed_positions) := p in
  bind (pure (wf_squared initial_positions)) (λ prob_current,
  bind (pure (wf_squared proposed_positions)) (λ prob_proposed,
  bind (pure (broadcast2 Qcminus prob_proposed prob_current)) (λ log_accept_prob,
  bind (random rng (length initial_positions)) (λ u,
  bind (pure (broadcast2 (λ u p, bool_decide (u < p)) u (map np_exp log_accept_prob)))
    (λ accept,
  let accept := map (λ b, [b]) accept in
  ret (proposed_positions, prob_current, prob_proposed, accept))))))).

Definition step (self : t) (n_accepted : Z) (wf_squared : Matrix Qc → result (Vector Qc))
    (state : State) (seed : Z) : M State :=
  let initial_positions := positions state in
  bind (decide_accept self wf_squared state seed) (λ d,
  let '(proposed_positions, prob_current, prob_proposed, accept) := d in
  bind (pure (or_raise AttributeError (accept_fn self))) (λ accept_fn,
  bind (pure (Metropolis.run_accept accept_fn n_accepted accept initial_positions
                proposed_positions prob_current prob_proposed)) (λ new,
  let '(new_positions, new_logp, n_accepted) := new in
  ret (mkState new_positions new_logp n_accepted (delta state + 1))))).

(** The factory [f] makes a new object on every call, in the state [g seed]. *)
Definition makes_new_generator (f : Z → M ref) (g : Z → Generator) : Prop :=
  ∀ seed σ, ∃ l, σ !! l = None ∧ f seed σ = (Ok l, <[l := g seed]> σ).

End store.

End Shared.

(** The sampler [m] whose [_rng] gives the state of a new generator stands
    for the sampler [self] whose factory makes such an object on every call. *)
Definition stands_for `{SamplerLib} (m : Metropolis.t) (self : Shared.t) : Prop :=
  Shared.makes_new_generator (Shared._rng self) (_rng (Metropolis.base m))
  ∧ Shared.scale self = scale (Metropolis.base m)
  ∧ Shared.accept_fn self = Metropolis.accept_fn m.

(** ** Collaborators whose code is outside the repository

    [physics.hamiltonians], [samplers.metro_hastings], the inherited
    [Sampler.sample] and [optimizers.gd].  [Sampler_sample s alg n c] is the
    call [s.sample(n, c)] on a sampler built around the model [alg]: it
    returns the chain state it leaves in [alg.state], the sampled
    configurations and their local energies. *)
Class Collaborators `{NumpyLib} : Type := {
  Hamiltonian : Type;
  HO__init__ : VMC.t → nat → nat → option Z → option string → string
               → result Hamiltonian;
  EO__init__ : VMC.t → nat → nat → option Z → option string → string → option Qc
               → result Hamiltonian;
  MetropolisHastings : Type;
  MetroHastings__init__ : VMC.t → option Hamiltonian → (Z → Generator) → Qc → nat → nat
                          → option Z → bool → string → option Qc → option Qc
                          → result MetropolisHastings;
  Sampler_sample : MetropolisHastings → VMC.t → nat → nat
                   → result (State * list (Matrix Qc) * list Qc);
  Gd : Type;
  Gd__init__ : Qc → Gd;
  Gd_step : Gd → ndarray → ndarray → ndarray;
}.

(** ** The orchestrator ([class QS])

    A method returns the object after the call, or the exception raised;
    attributes assigned before a [raise] are not tracked. *)

Module QS.

Record t `{Collaborators} : Type := mk {
  _backend : string;  (* the name given to the constructor *)
  backend : Backend;  (* which module [self.backend] is *)
  _log : bool;
  _seed : option Z;  (* [None] is the default *)
  _init_alpha : option Qc;
  beta : option Qc;
  time_step : option Qc;
  diffusion_coeff : option Qc;
  rng : Z → Generator;  (* generator factory *)
  hamiltonian : option Hamiltonian;
  int_type : option string;
  mcmc_alg : option string;
  _scale : option Qc;
  sampler : option MetropolisHastings;  (* [None]: attribute not assigned *)
  _optimizer : option Gd;
  _eta : option Qc;  (* [None]: attribute not assigned *)
  alg : option VMC.t;  (* the wavefunction model; [None]: not assigned *)
  alpha : option ndarray;  (* [self.alpha], the orchestrator's own copy *)
  _N : option nat;
  _dim : option nat;
  _is_initialized_ : bool;
  _is_trained_ : bool;
  _training_cycles : option nat;
  _training_batch : option nat;
}.

Section methods.
Context `{Collaborators} `{!JaxRandom}.

Definition assign_wf (self : t) (n d : nat) (a : VMC.t) (al : option ndarray) : t :=
  mk _ _ (_backend self) (backend self) (_log self) (_seed self) (_init_alpha self)
    (beta self) (time_step self) (diffusion_coeff self) (rng self) (hamiltonian self)
    (int_type self) (mcmc_alg self) (_scale self) (sampler self) (_optimizer self)
    (_eta self) (Some a) (al) (Some n) (Some d) (_is_initialized_ self)
    (_is_trained_ self) (_training_cycles self) (_training_batch self).

Definition assign_initialized (self : t) : t :=
  mk _ _ (_backend self) (backend self) (_log self) (_seed self) (_init_alpha self)
    (beta self) (time_step self) (diffusion_coeff self) (rng self) (hamiltonian self)
    (int_type self) (mcmc_alg self) (_scale self) (sampler self) (_optimizer self)
    (_eta self) (alg self) (alpha self) (_N self) (_dim self) (true) (_is_trained_ self)
    (_training_cycles self) (_training_batch self).

Definition assign_hamiltonian (self : t) (it : string) (h : Hamiltonian) : t :=
  mk _ _ (_backend self) (backend self) (_log self) (_seed self) (_init_alpha self)
    (beta self) (time_step self) (diffusion_coeff self) (rng self) (Some h) (Some it)
    (mcmc_alg self) (_scale self) (sampler self) (_optimizer self) (_eta self)
    (alg self) (alpha self) (_N self) (_dim self) (_is_initialized_ self)
    (_is_trained_ self) (_training_cycles self) (_training_batch self).

Definition assign_sampler (self : t) (m : string) (sc : Qc) (s : MetropolisHastings) : t :=
  mk _ _ (_backend self) (backend self) (_log self) (_seed self) (_init_alpha self)
    (beta self) (time_step self) (diffusion_coeff self) (rng self) (hamiltonian self)
    (int_type self) (Some m) (Some sc) (Some s) (_optimizer self) (_eta self) (alg self)
    (alpha self) (_N self) (_dim self) (_is_initialized_ self) (_is_trained_ self)
    (_training_cycles self) (_training_batch self).

Definition assign_optimizer (self : t) (eta : Qc) (o : Gd) : t :=
  mk _ _ (_backend self) (backend self) (_log self) (_seed self) (_init_alpha self)
    (beta self) (time_step self) (diffusion_coeff self) (rng self) (hamiltonian self)
    (int_type self) (mcmc_alg self) (_scale self) (sampler self) (Some o) (Some eta)
    (alg self) (alpha self) (_N self) (_dim self) (_is_initialized_ self)
    (_is_trained_ self) (_training_cycles self) (_training_batch self).

Definition assign_training (self : t) (mi bs : nat) : t :=
  mk _ _ (_backend self) (backend self) (_log self) (_seed self) (_init_alpha self)
    (beta self) (time_step self) (diffusion_coeff self) (rng self) (hamiltonian self)
    (int_type self) (mcmc_alg self) (_scale self) (sampler self) (_optimizer self)
    (_eta self) (alg self) (alpha self) (_N self) (_dim self) (_is_initialized_ self)
    (_is_trained_ self) (Some mi) (Some bs).

Definition assign_alg (self : t) (a : VMC.t) : t :=
  mk _ _ (_backend self) (backend self) (_log self) (_seed self) (_init_alpha self)
    (beta self) (time_step self) (diffusion_coeff self) (rng self) (hamiltonian self)
    (int_type self) (mcmc_alg self) (_scale self) (sampler self) (_optimizer self)
    (_eta self) (Some a) (alpha self) (_N self) (_dim self) (_is_initialized_ self)
    (_is_trained_ self) (_training_cycles self) (_training_batch self).

Definition assign_alpha (self : t) (al : ndarray) : t :=
  mk _ _ (_backend self) (backend self) (_log self) (_seed self) (_init_alpha self)
    (beta self) (time_step self) (diffusion_coeff self) (rng self) (hamiltonian self)
    (int_type self) (mcmc_alg self) (_scale self) (sampler self) (_optimizer self)
    (_eta self) (alg self) (Some al) (_N self) (_dim self) (_is_initialized_ self)
    (_is_trained_ self) (_training_cycles self) (_training_batch self).

Definition assign_trained (self : t) : t :=
  mk _ _ (_backend self) (backend self) (_log self) (_seed self) (_init_alpha self)
    (beta self) (time_step self) (diffusion_coeff self) (rng self) (hamiltonian self)
    (int_type self) (mcmc_alg self) (_scale self) (sampler self) (_optimizer self)
    (_eta self) (alg self) (alpha self) (_N self) (_dim self) (_is_initialized_ self)
    (true) (_training_cycles self) (_training_batch self).


Definition __init__ (backend : string) (log : bool) (rng : option (Z → Generator))
    (seed : option Z) (alpha beta time_step diffusion_coeff : option Qc) : result t :=
  let rng := match rng with None => default_rng | Some rng => rng end in
  b ← (if decide (backend = "numpy") then Ok numpy
       else if decide (backend = "jax") then Ok jax
       else Raise ValueError);
  Ok (mk _ _ backend b log seed alpha beta time_step diffusion_coeff rng
         None None None None None None None None None None None false false None None).

Definition set_wf (self : t) (wf_type : string) (nparticles dim : nat) : result t :=
  a ← VMC.__init__ nparticles dim (_seed self) (_backend self) (_init_alpha self) None;
  a ← VMC._initialize_vars a nparticles dim;
  let self := assign_wf self nparticles dim a (Arr1 <$> VMC.params a !! "alpha") in
  if decide (wf_type = "vmc") then Ok (assign_initialized self)
  else Raise ValueError.

Definition set_hamiltonian (self : t) (type_ : string) (int_type : string) : result t :=
  vmc_instance ← or_raise AttributeError (alg self);
  if decide (type_ = "ho") then
    n ← or_raise AttributeError (_N self);
    d ← or_raise AttributeError (_dim self);
    h ← HO__init__ vmc_instance n d (_seed self) (Some int_type) (_backend self);
    Ok (assign_hamiltonian self int_type h)
  else if decide (type_ = "eo") then
    n ← or_raise AttributeError (_N self);
    d ← or_raise AttributeError (_dim self);
    h ← EO__init__ vmc_instance n d (_seed self) (Some int_type) (_backend self) (beta self);
    Ok (assign_hamiltonian self int_type h)
  else Raise ValueError.

Definition set_sampler (self : t) (mcmc_alg : string) (scale : Qc) : result t :=
  vmc_instance ← or_raise AttributeError (alg self);
  let hami := hamiltonian self in
  if decide (mcmc_alg = "m") then
    n ← or_raise AttributeError (_N self);
    d ← or_raise AttributeError (_dim self);
    (* [Metro(vmc_instance, hami, self.rng, ...)]: the arguments are
       evaluated, and the call passes eleven positional arguments where
       [Metropolis.__init__] takes ten *)
    Raise TypeError
  else if decide (mcmc_alg = "mh") then
    n ← or_raise AttributeError (_N self);
    d ← or_raise AttributeError (_dim self);
    s ← MetroHastings__init__ vmc_instance hami (rng self) scale n d (_seed self)
          (_log self) (_backend self) (time_step self) (diffusion_coeff self);
    Ok (assign_sampler self mcmc_alg scale s)
  else Raise ValueError.

Definition set_optimizer (self : t) (optimizer : string) (eta : Qc) : result t :=
  if decide (optimizer = "gd") then Ok (assign_optimizer self eta (Gd__init__ eta))
  else Raise ValueError.

Definition _is_initialized (self : t) : result unit :=
  if _is_initialized_ self then Ok () else Raise NotInitialized.

Definition sample (self : t) (nsamples nchains : nat)
    : result (t * list (Matrix Qc) * list Qc) :=
  _ ← _is_initialized self;
  (* [system_info] reads these attributes *)
  _ ← or_raise AttributeError (_N self);
  _ ← or_raise AttributeError (_dim self);
  _ ← or_raise AttributeError (_eta self);
  _ ← or_raise AttributeError (_training_cycles self);
  _ ← or_raise AttributeError (_training_batch self);
  s ← or_raise AttributeError (sampler self);
  a ← or_raise AttributeError (alg self);
  out ← Sampler_sample s a nsamples nchains;
  let '(state, sampled_positions, local_energies) := out in
  Ok (assign_alg self (VMC.set_state a (Some state)), sampled_positions, local_energies).

(** The body of the loop of [train]. *)
Definition train_iteration (batch_size : nat) (self : t) : result t :=
  out ← sample self batch_size 1;
  let '(self, sampled_positions, local_energies) := out in
  a ← or_raise AttributeError (alg self);
  grads_alpha ← VMC.grads a sampled_positions;
  o ← or_raise AttributeError (_optimizer self);
  al ← or_raise AttributeError (alpha self);
  Ok (assign_alpha self (Gd_step o al grads_alpha)).

(** [for iteration in range(n): body] *)
Fixpoint loop (n : nat) (body : t → result t) (self : t) : result t :=
  match n with
  | O => Ok self
  | S n => self ← body self; loop n body self
  end.

Definition train (self : t) (max_iter batch_size : nat) (seed : Z) : result t :=
  _ ← _is_initialized self;
  let self := assign_training self max_iter batch_size in
  self ← loop max_iter (train_iteration batch_size) self;
  Ok (assign_trained self).

End methods.

End QS.

(** ** Stand-ins for the libraries, to run the model on concrete inputs

    A counter-based generator, a polynomial in place of the exponential,
    collaborators that do the least their interface allows, and gradient
    descent as the specification words it. *)

Module Example.

Definition lcg (g : Z) : Z := ((g * 1103515245 + 12345) `mod` 2147483648)%Z.

(** A rational in [0, 1). *)
Definition uniform (g : Z) : Qc := Q2Qc ((lcg g `mod` 1000)%Z # 1000).

Definition normal_draw (g : Z) (loc : Matrix Qc) (scale : Qc) : Matrix Qc * Z :=
  (imap (λ i row,
     imap (λ j x, x + scale * (uniform (g + Z.of_nat (31 * i + j)) - Q2Qc (1 # 2))) row) loc,
   lcg g).

Definition random_draw (g : Z) (n : nat) : Vector Qc * Z :=
  (map (λ i, uniform (g + Z.of_nat i)) (seq 0 n), lcg g).

Definition exp_poly (x : Qc) : Qc := 1 + x + x * x / 2.

Lemma random_draw_length g n : length (random_draw g n).1 = n.
Proof. unfold random_draw; simpl. by rewrite length_map, length_seq. Qed.

Lemma normal_draw_length g loc scale : length (normal_draw g loc scale).1 = length loc.
Proof. unfold normal_draw; simpl. by rewrite length_imap. Qed.

Lemma normal_draw_shape g loc scale n d :
  has_shape n d loc → has_shape n d (normal_draw g loc scale).1.
Proof.
  intros [Hn Hd]. split; [by rewrite normal_draw_length|].
  unfold normal_draw; simpl. apply Forall_lookup_2. intros i row.
  rewrite list_lookup_imap. destruct (loc !! i) as [l|] eqn:Hl; [|done].
  intros [= <-]. rewrite length_imap. by eapply Forall_lookup_1 in Hd.
Qed.

Definition numpy_lib : NumpyLib :=
  Build_NumpyLib Z (λ seed, seed) normal_draw random_draw exp_poly
    random_draw_length normal_draw_length normal_draw_shape.

Definition jax_random : JaxRandom :=
  {| initial_normal seed n d := (normal_draw seed (replicate n (replicate d 0)) 1).1 |}.

Definition sampler_lib : @SamplerLib numpy_lib :=
  @spec_sampler_lib numpy_lib (λ seed delta, (seed + delta)%Z).

(** Modelled from the spec: [optimizers.gd.Gd.step] is not among the sources;
    the specification gives [updated = current − eta * gradientEstimate]. *)
Definition gd_step (eta : Qc) (current gradient : ndarray) : ndarray :=
  match current, gradient with
  | Arr1 c, Arr1 g =>
      match broadcast2 (λ c g, c - eta * g) c g with
      | Ok v => Arr1 v
      | Raise _ => current
      end
  | _, _ => current
  end.

(** A sampler object that returns the model's chain state and one copy of its
    configuration per requested sample, with zero energies. *)
Definition sample_stub (_ : unit) (alg : VMC.t) (nsamples nchains : nat)
    : result (State * list (Matrix Qc) * list Qc) :=
  s ← or_raise AttributeError (VMC.state alg);
  Ok (s, replicate nsamples (positions s), replicate nsamples 0).

Definition collaborators : @Collaborators numpy_lib :=
  {| Hamiltonian := unit;
     HO__init__ _ _ _ _ _ _ := Ok ();
     EO__init__ _ _ _ _ _ _ _ := Ok ();
     MetropolisHastings := unit;
     MetroHastings__init__ _ _ _ _ _ _ _ _ _ _ _ := Ok ();
     Sampler_sample := sample_stub;
     Gd := Qc;
     Gd__init__ eta := eta;
     Gd_step := gd_step |}.

(** A model of two particles in three dimensions with alpha = 0.5, samplers
    around it for each way the dispatch of [Metropolis.__init__] can end, and
    a chain state. *)
Definition model : VMC.t :=
  VMC.mk numpy {[ "alpha" := [Q2Qc (1 # 2)] ]} None 142 2 3 None.

Definition sampler (backend : string) (fn : option Metropolis.accept_impl)
    (out : list string) : @Metropolis.t numpy_lib :=
  Metropolis.mk numpy_lib 142 2 3 false model
    (@mkSampler numpy_lib (λ seed, seed) 1 backend) fn out.

Definition numpy_sampler : @Metropolis.t numpy_lib :=
  sampler "numpy" (Some Metropolis.accept_numpy_fn) [].

Definition jax_sampler : @Metropolis.t numpy_lib :=
  sampler "jax" (Some Metropolis.accept_jax_fn) [].

(** The numpy sampler on the store, with a factory that makes a new
    generator on every call, and one whose factory hands out the generator
    object at 0 whatever the seed. *)
Definition shared_sampler : @Shared.t numpy_lib :=
  @Shared.mk numpy_lib (@Shared.new_generator numpy_lib (λ seed, seed)) 1
    (Some Metropolis.accept_numpy_fn).

Definition sharing_sampler : @Shared.t numpy_lib :=
  @Shared.mk numpy_lib (λ _, @Shared.ret numpy_lib _ 0%nat) 1
    (Some Metropolis.accept_numpy_fn).

Definition state0 : State :=
  mkState [[1; 0; 0]; [0; 1; - 1]] (Arr1 [- 1; - 2]) 0 0.

(** The same positions and step index with another log density and count. *)
Definition state1 : State :=
  mkState [[1; 0; 0]; [0; 1; - 1]] (Arr1 []) 7 0.

(** A run of the orchestrator: set up on the numpy back end with the default
    alpha, then [max_iter] training iterations on batches of one sample with
    learning rate 0.1. *)
Definition trained (max_iter : nat) : result (@QS.t _ collaborators) :=
  qs ← @QS.__init__ _ collaborators "numpy" false None (Some 142%Z) None None None None;
  qs ← @QS.set_wf _ collaborators jax_random qs "vmc" 2 3;
  qs ← QS.set_hamiltonian qs "ho" "None";
  qs ← QS.set_sampler qs "mh" 1;
  qs ← QS.set_optimizer qs "gd" (Q2Qc (1 # 10));
  QS.train qs max_iter 1 142.

(** The orchestrator as its constructor returns it on the numpy back end,
    after [set_wf], and after the whole setup with learning rate 0.1. *)
Definition blank : @QS.t _ collaborators :=
  QS.mk _ collaborators "numpy" numpy false (Some 142%Z) None None None None default_rng
    None None None None None None None None None None None false false None None.

Definition unwrap {A} (d : A) (r : result A) : A :=
  match r with Ok a => a | Raise _ => d end.

Definition initialized : @QS.t _ collaborators :=
  unwrap blank (@QS.set_wf _ collaborators jax_random blank "vmc" 2 3).

Definition ready : @QS.t _ collaborators :=
  unwrap blank (qs ← QS.set_hamiltonian initialized "ho" "None";
                qs ← QS.set_sampler qs "mh" 1;
                QS.set_optimizer qs "gd" (Q2Qc (1 # 10))).

End Example.

(** * What the specification says, as definitions *)

(** The Laplacian of the isotropic Gaussian trial state as the specification
    gives it: the sum over particles of 4·alpha²·Σ_d r_{i,d}² − 2·alpha·D. *)
Definition gaussian_laplacian (D : nat) (r : Matrix Qc) (alpha : Qc) : Qc :=
  vsum (map (λ r_i, Qc_of_Z 4 * (alpha * alpha) * vsum (map (λ x, x * x) r_i)
                     - 2 * alpha * VMC.of_nat D) r).

(** What the specification asks of the composition in one step: row [i] of
    the new array is row [i] of the proposal where the mask holds and of the
    current array elsewhere, and the count grows by the number of accepted
    particles. *)
Definition select_rows {A} (mask : list bool) (proposed current : list A) : list A :=
  zip_with (λ (b : bool) (pc : A * A), if b then pc.1 else pc.2) mask (zip proposed current).

Definition count_accepted (mask : list bool) : Z :=
  Z.of_nat (length (filter (λ b, b = true) mask)).

(** The seed of a derivative: 1 at the coordinate differentiated, else 0. *)
Definition indicator (j b : nat) : Qc := if decide (j = b) then 1 else 0.


(** * Definitions used to state further properties *)

(** The alpha that the constructor stores for an argument. *)
Definition stored_alpha (alpha : option Qc) : Qc :=
  match alpha with
  | Some a => if bool_decide (a ≠ 0) then a else Q2Qc (1 # 2)
  | None => Q2Qc (1 # 2)
  end.

(** What [train] leaves alone. *)
Definition same_wiring `{Collaborators} (self self' : QS.t) : Prop :=
  QS._backend self' = QS._backend self
  ∧ QS.hamiltonian self' = QS.hamiltonian self
  ∧ QS.mcmc_alg self' = QS.mcmc_alg self
  ∧ QS.sampler self' = QS.sampler self
  ∧ QS._optimizer self' = QS._optimizer self
  ∧ QS._eta self' = QS._eta self
  ∧ QS._N self' = QS._N self ∧ QS._dim self' = QS._dim self
  ∧ QS._is_initialized_ self' = QS._is_initialized_ self
  ∧ VMC.params <$> QS.alg self' = VMC.params <$> QS.alg self
  ∧ VMC.backend <$> QS.alg self' = VMC.backend <$> QS.alg self.

(** * Properties *)

(** ** Arrays *)

Lemma Qc_pow2 (x : Qc) : n_pow x 2 = x * x.
Proof. reflexivity. Qed.

Lemma concat_length_shape {A} (n d : nat) (r : Matrix A) :
  has_shape n d r → length (concat r) = (n * d)%nat.
Proof.
  intros [Hn Hd]. subst n. induction Hd as [|row r Hrow _ IH]; [done|].
  simpl. rewrite length_app, Hrow, IH. lia.
Qed.

Lemma rows_of_concat {A} (n d : nat) (r : Matrix A) :
  has_shape n d r → rows_of n d (concat r) = r.
Proof.
  intros [Hn Hd]. subst n. unfold rows_of.
  induction Hd as [|row r Hrow _ IH]; [done|].
  cbn [length seq map concat]. f_equal.
  - rewrite Nat.mul_0_l, drop_0. by apply take_app_length'.
  - etrans; [|exact IH].
    rewrite <- fmap_S_seq, <- list_fmap_compose.
    apply list_fmap_ext. intros _ i _. simpl.
    f_equal. rewrite <- Hrow. by rewrite drop_app_add.
Qed.

(** On an (N, D) array with D = dim > 0, [reshape(-1, dim)] changes nothing. *)
Lemma reshape_infer_same_shape {A} (n d : nat) (r : Matrix A) :
  has_shape n d r → (0 < d)%nat → reshape_infer d (concat r) = Ok r.
Proof.
  intros Hs Hd. unfold reshape_infer.
  rewrite (concat_length_shape n d r Hs).
  destruct (decide (d = 0%nat)); [lia|].
  rewrite Nat.Div0.mod_mul, Nat.div_mul by lia.
  destruct (decide (0%nat = 0%nat)); [|done].
  by rewrite rows_of_concat.
Qed.

Lemma msum_column (v : Vector Qc) : msum (map (λ x, [x]) v) = vsum v.
Proof. unfold msum. induction v as [|x v IH]; [done|]. simpl. by rewrite <- IH. Qed.

(** ** The wavefunction model *)

(** On an (N, D) array, on a model of dimension D > 0, the analytic closure
    returns the Gaussian value. *)
Lemma laplacian_closure_on_shape (self : VMC.t) (N D : nat) (r : Matrix Qc) (alpha : Qc) :
  has_shape N D r → VMC._dim self = D → (0 < D)%nat →
  VMC.laplacian_closure self r alpha = Ok (gaussian_laplacian D r alpha).
Proof.
  intros Hs Hdim HD. unfold VMC.laplacian_closure.
  rewrite Hdim, (reshape_infer_same_shape N D r Hs HD). cbn [mbind result_bind].
  rewrite msum_column. f_equal. unfold gaussian_laplacian, sum_axis1, msquare.
  rewrite !map_map. f_equal. apply map_ext. intros row.
  rewrite map_ext with (g := λ x : Qc, x * x) by (intros; apply Qc_pow2).
  f_equal. f_equal. simpl. ring.
Qed.

(** C5. For a configuration [r] of shape (N, D) on a model of dimension D > 0
    and every scalar [alpha], the analytic [laplacian_closure] returns the sum
    over particles of 4·alpha²·Σ_d r_{i,d}² − 2·alpha·D. *)
Theorem laplacian_closure_gaussian (self : VMC.t) (N D : nat) (r : Matrix Qc) (alpha : Qc) :
  has_shape N D r → VMC._dim self = D → (0 < D)%nat →
  VMC.laplacian_closure self r alpha
  = Ok (vsum (map (λ r_i, Qc_of_Z 4 * (alpha * alpha) * vsum (map (λ x, x * x) r_i)
                           - 2 * alpha * VMC.of_nat D) r)).
Proof. exact (laplacian_closure_on_shape self N D r alpha). Qed.

Lemma laplacian_closure_gaussian_witness :
  VMC.laplacian_closure
    (VMC.mk numpy {[ "alpha" := [Q2Qc (1 # 2)] ]} None 142 2 3 None)
    [[1; 2; Q2Qc 3]; [0; 1; - 1]] (Q2Qc (1 # 2))
  = Ok (gaussian_laplacian 3 [[1; 2; Q2Qc 3]; [0; 1; - 1]] (Q2Qc (1 # 2))).
Proof.
  apply (laplacian_closure_gaussian _ 2 3).
  - split; [reflexivity | repeat constructor].
  - reflexivity.
  - lia.
Defined.

(** The value at that input: 4·¼·(14 + 2) − 2·½·3·2 = 10. *)
Example laplacian_closure_value :
  VMC.laplacian_closure
    (VMC.mk numpy {[ "alpha" := [Q2Qc (1 # 2)] ]} None 142 2 3 None)
    [[1; 2; Q2Qc 3]; [0; 1; - 1]] (Q2Qc (1 # 2)) = Ok (Qc_of_Z 10).
Proof. compute_done. Qed.

Lemma wf_closure_length (r : Matrix Qc) (alpha : Qc) :
  length (VMC.wf_closure r alpha) = length r.
Proof. unfold VMC.wf_closure, sum_axis1, msquare. by rewrite !length_map. Qed.

Lemma prob_closure_length (r : Matrix Qc) (alpha : Qc) :
  length (VMC.prob_closure r alpha) = length r.
Proof. unfold VMC.prob_closure. by rewrite length_map, wf_closure_length. Qed.

(** C9. [prob_closure(r, alpha)] is twice [wf_closure(r, alpha)], entry by
    entry of the per-particle array. *)
Theorem prob_closure_twice_wf_closure (r : Matrix Qc) (alpha : Qc) :
  VMC.prob_closure r alpha = map (λ log_psi, 2 * log_psi) (VMC.wf_closure r alpha)
  ∧ length (VMC.prob_closure r alpha) = length r
  ∧ ∀ i : nat, VMC.prob_closure r alpha !! i
               = (λ log_psi, 2 * log_psi) <$> VMC.wf_closure r alpha !! i.
Proof.
  split; [reflexivity|]. split; [apply prob_closure_length|].
  intros i. unfold VMC.prob_closure. by rewrite list_lookup_fmap.
Qed.

(** The same through the methods that read the stored parameter. *)
Lemma prob_twice_wf (self : VMC.t) (r : Matrix Qc) :
  VMC.prob self r = (v ← VMC.wf self r; Ok (map (λ log_psi, 2 * log_psi) v)).
Proof. unfold VMC.prob, VMC.wf. by destruct (VMC.get_alpha _). Qed.

Lemma prob_length (self : VMC.t) (r : Matrix Qc) (v : Vector Qc) :
  VMC.prob self r = Ok v → length v = length r.
Proof.
  unfold VMC.prob. destruct (VMC.get_alpha _); [|done].
  intros [= <-]. apply prob_closure_length.
Qed.

(** The constructor succeeds on both supported back ends, whatever [alpha]. *)
Lemma VMC_init_params `{JaxRandom} (n d : nat) (seed : Z) (backend : string)
    (alpha beta : option Qc) :
  backend = "numpy" ∨ backend = "jax" →
  ∃ self, VMC.__init__ n d (Some seed) backend alpha beta = Ok self
          ∧ VMC.params self
            = (if VMC.truthy alpha then VMC._initialize_variational_params alpha
               else VMC._initialize_variational_params None).
Proof.
  intros Hb. unfold VMC.__init__.
  assert (∃ b, VMC._configure_backend None backend = Ok b) as [b ->].
  { destruct Hb as [-> | ->]; eexists; reflexivity. }
  cbn [mbind result_bind]. unfold VMC._initialize_vars.
  cbn [VMC.set_dims VMC.params VMC.set_state].
  assert (∃ a, VMC.get_alpha
    (if VMC.truthy alpha then VMC._initialize_variational_params alpha
     else VMC._initialize_variational_params None) = Ok a) as [a ->].
  { unfold VMC.get_alpha, VMC._initialize_variational_params.
    destruct alpha as [x|]; cbn [VMC.truthy];
      [destruct (bool_decide (x ≠ 0))|]; rewrite lookup_singleton_eq; eauto. }
  cbn [mbind result_bind]. eexists. split; reflexivity.
Qed.

(** C10. A [VMC] constructed with [alpha = 0.0], with [alpha = None] or
    without [alpha] gets the parameter "alpha" equal to the default 0.5: the
    constructor tests the truth value of the argument. *)
Theorem alpha_zero_replaced_by_default `{JaxRandom} (n d : nat) (seed : Z)
    (backend : string) (alpha beta : option Qc) :
  backend = "numpy" ∨ backend = "jax" →
  alpha = Some 0 ∨ alpha = None →
  ∃ self, VMC.__init__ n d (Some seed) backend alpha beta = Ok self
          ∧ VMC.params self !! "alpha" = Some [Q2Qc (1 # 2)].
Proof.
  intros Hb Ha.
  destruct (VMC_init_params n d seed backend alpha beta Hb) as (self & Hinit & Hp).
  exists self. split; [done|]. rewrite Hp.
  destruct Ha as [-> | ->]; cbn [VMC.truthy VMC._initialize_variational_params].
  - rewrite bool_decide_eq_false_2 by (intros Hne; by apply Hne).
    apply lookup_singleton_eq.
  - apply lookup_singleton_eq.
Qed.

Lemma alpha_zero_replaced_by_default_witness :
  ∃ self, @VMC.__init__ Example.jax_random 4 3 (Some 142%Z) "numpy" (Some 0) None = Ok self
          ∧ VMC.params self !! "alpha" = Some [Q2Qc (1 # 2)].
Proof.
  apply (@alpha_zero_replaced_by_default Example.jax_random 4 3 142 "numpy" (Some 0) None).
  - left. reflexivity.
  - left. reflexivity.
Defined.

(** A truthy [alpha] is kept. *)
Lemma alpha_nonzero_kept `{JaxRandom} (n d : nat) (seed : Z) (backend : string)
    (a : Qc) (beta : option Qc) :
  backend = "numpy" ∨ backend = "jax" → a ≠ 0 →
  ∃ self, VMC.__init__ n d (Some seed) backend (Some a) beta = Ok self
          ∧ VMC.params self !! "alpha" = Some [a].
Proof.
  intros Hb Ha.
  destruct (VMC_init_params n d seed backend (Some a) beta Hb) as (self & Hinit & Hp).
  exists self. split; [done|]. rewrite Hp.
  cbn [VMC.truthy VMC._initialize_variational_params].
  rewrite bool_decide_eq_true_2 by done. apply lookup_singleton_eq.
Qed.

(** ** The sampler *)

Lemma broadcast2_same_length {A B C} (f : A → B → C) (x : list A) (y : list B) :
  length x = length y → broadcast2 f x y = Ok (zip_with f x y).
Proof. intros Hl. unfold broadcast2. by rewrite decide_True. Qed.

Section sampler_properties.
Context `{SamplerLib}.

Lemma propose_length (self : Metropolis.t) (state : State) (seed : Z) :
  length (Metropolis.propose self state seed).1 = length (positions state).
Proof. unfold Metropolis.propose. apply gen_normal_length. Qed.

(** What [step] computes up to the accept mask, when the log density returns
    one value per particle. *)
Lemma decide_accept_on_shape (self : Metropolis.t)
    (wf_squared : Matrix Qc → result (Vector Qc)) (state : State) (seed : Z) :
  (∀ r, ∃ v, wf_squared r = Ok v ∧ length v = length r) →
  let N := length (positions state) in
  let proposed := (Metropolis.propose self state seed).1 in
  let u := (gen_random (Metropolis.propose self state seed).2 N).1 in
  ∃ prob_current prob_proposed accept,
    wf_squared (positions state) = Ok prob_current
    ∧ wf_squared proposed = Ok prob_proposed
    ∧ Metropolis.decide_accept self wf_squared state seed
      = Ok (proposed, prob_current, prob_proposed, accept)
    ∧ length accept = N
    ∧ ∀ i, (i < N)%nat →
        ∃ u_i c_i p_i, u !! i = Some u_i ∧ prob_current !! i = Some c_i
          ∧ prob_proposed !! i = Some p_i
          ∧ accept !! i = Some [bool_decide (u_i < np_exp (p_i - c_i))].
Proof.
  intros Hwf N proposed u.
  destruct (Hwf (positions state)) as (pc & Hpc & Hlc).
  destruct (Hwf proposed) as (pp & Hpp & Hlp).
  assert (length proposed = N) as HlP by apply propose_length.
  assert (length u = N) as Hlu by apply gen_random_length.
  exists pc, pp, (map (λ b, [b]) (zip_with (λ u p, bool_decide (u < p)) u
                    (map np_exp (zip_with Qcminus pp pc)))).
  split; [done|]. split; [done|]. split; [|split].
  - unfold Metropolis.decide_accept. subst proposed u N.
    destruct (Metropolis.propose self state seed) as [P g] eqn:HP. simpl in *.
    rewrite Hpc, Hpp. cbn [mbind result_bind].
    rewrite broadcast2_same_length by congruence. cbn [mbind result_bind].
    destruct (gen_random g (length (positions state))) as [u' g'] eqn:Hu. simpl in *.
    rewrite broadcast2_same_length; [done|].
    rewrite length_map, length_zip_with. lia.
  - rewrite length_map, length_zip_with, length_map, length_zip_with. lia.
  - intros i Hi.
    destruct (lookup_lt_is_Some_2 u i) as [u_i Hui]; [lia|].
    destruct (lookup_lt_is_Some_2 pc i) as [c_i Hci]; [lia|].
    destruct (lookup_lt_is_Some_2 pp i) as [p_i Hpi]; [lia|].
    exists u_i, c_i, p_i. repeat split; try done.
    rewrite list_lookup_fmap, lookup_zip_with, Hui. simpl.
    by rewrite list_lookup_fmap, lookup_zip_with, Hpi, Hci.
Qed.

(** C4. Particle [i] is accepted exactly when its own uniform draw is below
    the exponential of the difference of its own log densities; the mask has
    one decision per particle. *)
Theorem accept_decided_per_particle (self : Metropolis.t)
    (wf_squared : Matrix Qc → result (Vector Qc)) (state : State) (seed : Z) :
  (∀ r, ∃ v, wf_squared r = Ok v ∧ length v = length r) →
  let N := length (positions state) in
  let proposed := (Metropolis.propose self state seed).1 in
  let u := (gen_random (Metropolis.propose self state seed).2 N).1 in
  ∃ prob_current prob_proposed accept,
    wf_squared (positions state) = Ok prob_current
    ∧ wf_squared proposed = Ok prob_proposed
    ∧ Metropolis.decide_accept self wf_squared state seed
      = Ok (proposed, prob_current, prob_proposed, accept)
    ∧ length accept = N
    ∧ ∀ i, (i < N)%nat →
        ∃ u_i c_i p_i, u !! i = Some u_i ∧ prob_current !! i = Some c_i
          ∧ prob_proposed !! i = Some p_i
          ∧ accept !! i = Some [bool_decide (u_i < np_exp (p_i - c_i))].
Proof. exact (decide_accept_on_shape self wf_squared state seed). Qed.

End sampler_properties.

(** *** The generator of a step and the generators made before it *)

Section shared_generators.
Context `{SamplerLib}.

Lemma new_generator_makes_new (g : Z → Generator) :
  Shared.makes_new_generator (Shared.new_generator g) g.
Proof.
  intros seed σ. exists (fresh (dom σ)). split; [|done].
  apply (not_elem_of_dom_1 σ), is_fresh.
Qed.

(** The proposal on the store: the draw of a new object, which no object of
    the store before the call takes part in. *)
Lemma Shared_propose (m : Metropolis.t) (self : Shared.t) (state : State) (seed : Z)
    (σ : Shared.store) :
  stands_for m self →
  ∃ l, σ !! l = None
       ∧ Shared.propose self state seed σ
         = (Ok (l, (Metropolis.propose m state seed).1),
            <[l := (Metropolis.propose m state seed).2]> σ).
Proof.
  intros (Hnew & Hscale & _).
  destruct (Hnew (advance_PRNG_state seed (delta state)) σ) as (l & Hl & Hf).
  exists l. split; [done|].
  unfold Shared.propose, Shared.bind, Metropolis.propose. rewrite Hf.
  cbv beta iota. unfold Shared.normal. rewrite lookup_insert_eq, Hscale.
  destruct (gen_normal _ _ _) as [x g']. cbn. by rewrite insert_insert_eq.
Qed.

Lemma Shared_decide_accept (m : Metropolis.t) (self : Shared.t)
    (wf_squared : Matrix Qc → result (Vector Qc)) (state : State) (seed : Z)
    (σ : Shared.store) :
  stands_for m self →
  ∃ σ', σ ⊆ σ'
        ∧ Shared.decide_accept self wf_squared state seed σ
          = (Metropolis.decide_accept m wf_squared state seed, σ').
Proof.
  intros Hm. destruct (Shared_propose m self state seed σ Hm) as (l & Hl & Hp).
  unfold Shared.decide_accept, Metropolis.decide_accept, Shared.bind at 1. rewrite Hp.
  destruct (Metropolis.propose m state seed) as [P g]. cbn [fst snd].
  unfold Shared.bind, Shared.pure.
  destruct (wf_squared (positions state)) as [pc|e];
    [|eexists; split; [|reflexivity]; by apply insert_subseteq].
  destruct (wf_squared P) as [pp|e];
    [|eexists; split; [|reflexivity]; by apply insert_subseteq].
  cbn [mbind result_bind].
  destruct (broadcast2 Qcminus pp pc) as [lap|e];
    [|eexists; split; [|reflexivity]; by apply insert_subseteq].
  cbn [mbind result_bind]. unfold Shared.random. rewrite lookup_insert_eq.
  destruct (gen_random g (length (positions state))) as [u g'].
  rewrite insert_insert_eq.
  destruct (broadcast2 _ u _) as [acc|e];
    eexists; (split; [|reflexivity]); by apply insert_subseteq.
Qed.

Lemma Shared_step (m : Metropolis.t) (self : Shared.t) (n : Z)
    (wf_squared : Matrix Qc → result (Vector Qc)) (state : State) (seed : Z)
    (σ : Shared.store) :
  stands_for m self →
  ∃ σ', σ ⊆ σ'
        ∧ Shared.step self n wf_squared state seed σ
          = (Metropolis.step m n wf_squared state seed, σ').
Proof.
  intros Hm.
  destruct (Shared_decide_accept m self wf_squared state seed σ Hm) as (σ' & Hsub & Hd).
  exists σ'. split; [done|].
  unfold Shared.step, Metropolis.step, Shared.bind at 1. rewrite Hd.
  destruct Hm as (_ & _ & ->).
  destruct (Metropolis.decide_accept m wf_squared state seed)
    as [[[[P pc] pp] acc]|e]; [|done].
  cbn [mbind result_bind]. unfold Shared.bind, Shared.pure.
  destruct (Metropolis.accept_fn m) as [fn|]; [|done].
  cbn [or_raise mbind result_bind].
  destruct (Metropolis.run_accept _ _ _ _ _ _ _) as [[[np nl] na]|e]; done.
Qed.

(** [step] reads the positions and the step index of the state, and nothing
    else of it. *)
Lemma step_reads_positions_and_delta (m : Metropolis.t) (n : Z)
    (wf_squared : Matrix Qc → result (Vector Qc)) (s1 s2 : State) (seed : Z) :
  positions s1 = positions s2 → delta s1 = delta s2 →
  Metropolis.propose m s1 seed = Metropolis.propose m s2 seed
  ∧ Metropolis.decide_accept m wf_squared s1 seed
    = Metropolis.decide_accept m wf_squared s2 seed
  ∧ Metropolis.step m n wf_squared s1 seed = Metropolis.step m n wf_squared s2 seed.
Proof.
  intros Hpos Hdelta.
  assert (Metropolis.propose m s1 seed = Metropolis.propose m s2 seed) as Hprop.
  { unfold Metropolis.propose. by rewrite Hpos, Hdelta. }
  assert (Metropolis.decide_accept m wf_squared s1 seed
          = Metropolis.decide_accept m wf_squared s2 seed) as Hacc.
  { unfold Metropolis.decide_accept. by rewrite Hprop, Hpos. }
  repeat split; try done.
  unfold Metropolis.step. by rewrite Hacc, Hpos, Hdelta.
Qed.


End shared_generators.


(** The hypothesis on the factory is needed: when the factory hands out one
    generator object for every seed, the proposal of a step depends on what
    earlier draws left in that object. *)
Example shared_generator_is_not_deterministic :
  snd <$> (@Shared.propose _ Example.sampler_lib Example.sharing_sampler
             Example.state0 142 {[ 0%nat := 1%Z ]}).1
  ≠ snd <$> (@Shared.propose _ Example.sampler_lib Example.sharing_sampler
               Example.state0 142 {[ 0%nat := 2%Z ]}).1.
Proof. compute_done. Qed.

Lemma Example_prob_total (r : Matrix Qc) :
  ∃ v, VMC.prob Example.model r = Ok v ∧ length v = length r.
Proof.
  exists (VMC.prob_closure r (Q2Qc (1 # 2))). split; [reflexivity|].
  apply prob_closure_length.
Qed.

Lemma accept_decided_per_particle_witness :
  ∃ prob_current prob_proposed accept,
    VMC.prob Example.model (positions Example.state0) = Ok prob_current
    ∧ VMC.prob Example.model
        (@Metropolis.propose _ Example.sampler_lib Example.numpy_sampler
           Example.state0 142).1
      = Ok prob_proposed
    ∧ @Metropolis.decide_accept _ Example.sampler_lib Example.numpy_sampler
        (VMC.prob Example.model) Example.state0 142
      = Ok ((@Metropolis.propose _ Example.sampler_lib Example.numpy_sampler
               Example.state0 142).1,
            prob_current, prob_proposed, accept)
    ∧ length accept = length (positions Example.state0)
    ∧ ∀ i, (i < length (positions Example.state0))%nat →
        ∃ u_i c_i p_i,
          (Example.random_draw
             (@Metropolis.propose _ Example.sampler_lib Example.numpy_sampler
                Example.state0 142).2
             (length (positions Example.state0))).1 !! i = Some u_i
          ∧ prob_current !! i = Some c_i
          ∧ prob_proposed !! i = Some p_i
          ∧ accept !! i = Some [bool_decide (u_i < Example.exp_poly (p_i - c_i))].
Proof.
  apply (@accept_decided_per_particle _ Example.sampler_lib Example.numpy_sampler
           (VMC.prob Example.model) Example.state0 142 Example_prob_total).
Defined.

(** The mask of that step: both particles are accepted. *)
Example decide_accept_value :
  (λ d, d.2) <$> @Metropolis.decide_accept _ Example.sampler_lib Example.numpy_sampler
                   (VMC.prob Example.model) Example.state0 142
  = Ok [[true]; [true]].
Proof. compute_done. Qed.

(** *** The accept/reject composition *)

Lemma select_rows_length {A} (mask : list bool) (p c : list A) (n : nat) :
  length mask = n → length p = n → length c = n → length (select_rows mask p c) = n.
Proof.
  intros Hm Hp Hc. unfold select_rows. rewrite length_zip_with, length_zip. lia.
Qed.

Lemma select_rows_lookup {A} (mask : list bool) (p c : list A) (i : nat) (b : bool) (x y : A) :
  mask !! i = Some b → p !! i = Some x → c !! i = Some y →
  select_rows mask p c !! i = Some (if b then x else y).
Proof.
  intros Hm Hp Hc. unfold select_rows.
  rewrite lookup_zip_with, Hm. simpl.
  by rewrite lookup_zip_with, Hp; simpl; rewrite Hc.
Qed.

Lemma count_accepted_snoc (mask : list bool) (b : bool) :
  count_accepted (mask ++ [b]) = (count_accepted mask + (if b then 1 else 0))%Z.
Proof.
  unfold count_accepted. rewrite filter_app, length_app.
  destruct b; [rewrite filter_cons_True by done | rewrite filter_cons_False by done];
    rewrite filter_nil; simpl; lia.
Qed.

Lemma insert_take_drop {A} (l z : list A) (k : nat) (x : A) :
  l !! k = Some x → (k < length z)%nat →
  <[k := x]> (take k l ++ drop k z) = take (S k) l ++ drop (S k) z.
Proof.
  intros Hl Hz.
  destruct (lookup_lt_is_Some_2 z k Hz) as [y Hy].
  assert (length (take k l) = k) as Hk.
  { rewrite length_take. apply lookup_lt_Some in Hl. lia. }
  rewrite (take_S_r l k x Hl), (drop_S z y k Hy).
  rewrite insert_app_r_alt by lia. rewrite Hk, Nat.sub_diag. simpl.
  by rewrite <- app_assoc.
Qed.

Lemma lookup_take_drop {A} (l z : list A) (k : nat) :
  (k ≤ length l)%nat → (take k l ++ drop k z) !! k = z !! k.
Proof.
  intros Hk. rewrite lookup_app_r; rewrite length_take; [|lia].
  rewrite lookup_drop. f_equal. lia.
Qed.

Section accept_numpy.
Context (N D : nat) (mask : list bool).
Context (initial_positions proposed_positions : Matrix Qc).
Context (log_psi_current log_psi_proposed : Vector Qc).
Hypothesis Hinit : has_shape N D initial_positions.
Hypothesis Hprop : has_shape N D proposed_positions.
Hypothesis Hcur : length log_psi_current = N.
Hypothesis Hpro : length log_psi_proposed = N.
Hypothesis Hmask : length mask = N.

Let accept : Matrix bool := map (λ b, [b]) mask.
Let sel_pos := select_rows mask proposed_positions initial_positions.
Let sel_logp := select_rows mask log_psi_proposed log_psi_current.
Let zeros_pos := Metropolis.zeros_like initial_positions.
Let zeros_logp : Vector Qc := map (λ _, 0) log_psi_current.

(** The loop state after the particles below [k] are done. *)
Let after (n : Z) (k : nat) : Matrix Qc * Vector Qc * Z :=
  (take k sel_pos ++ drop k zeros_pos, take k sel_logp ++ drop k zeros_logp,
   (n + count_accepted (take k mask))%Z).

Lemma accept_numpy_body_step (n : Z) (k : nat) :
  (k < N)%nat →
  Metropolis.accept_numpy_body accept initial_positions proposed_positions
    log_psi_current log_psi_proposed (after n k) k = Ok (after n (S k)).
Proof.
  intros Hk. destruct Hinit as [HNi HDi], Hprop as [HNp HDp].
  destruct (lookup_lt_is_Some_2 mask k) as [b Hb]; [lia|].
  destruct (lookup_lt_is_Some_2 initial_positions k) as [c Hc]; [lia|].
  destruct (lookup_lt_is_Some_2 proposed_positions k) as [p Hp]; [lia|].
  destruct (lookup_lt_is_Some_2 log_psi_current k) as [lc Hlc]; [lia|].
  destruct (lookup_lt_is_Some_2 log_psi_proposed k) as [lp Hlp]; [lia|].
  assert (length c = D) as HcD by (eapply Forall_lookup_1 in HDi; eauto).
  assert (length p = D) as HpD by (eapply Forall_lookup_1 in HDp; eauto).
  assert (length sel_pos = N) as Hsp by (by apply select_rows_length).
  assert (length sel_logp = N) as Hsl by (by apply select_rows_length).
  assert (length zeros_pos = N) as Hzp.
  { subst zeros_pos. unfold Metropolis.zeros_like. by rewrite length_map. }
  assert (length zeros_logp = N) as Hzl by (subst zeros_logp; by rewrite length_map).
  assert (zeros_pos !! k = Some (map (λ _, 0) c)) as Hzk.
  { subst zeros_pos. unfold Metropolis.zeros_like. by rewrite list_lookup_fmap, Hc. }
  assert (sel_pos !! k = Some (if b then p else c)) as Hselp
    by (by apply select_rows_lookup).
  assert (sel_logp !! k = Some (if b then lp else lc)) as Hsell
    by (by apply select_rows_lookup).
  unfold Metropolis.accept_numpy_body, after.
  subst accept. rewrite list_lookup_fmap, Hb. cbn [fmap option_fmap option_map or_raise
    mbind result_bind Metropolis.truth_value].
  rewrite (take_S_r mask k b Hb), count_accepted_snoc.
  unfold Metropolis.assign_row, Metropolis.assign_item.
  rewrite lookup_take_drop, Hzk by lia. cbn [or_raise mbind result_bind].
  rewrite !length_map.
  destruct b; rewrite ?Hp, ?Hc, ?Hlp, ?Hlc; cbn [or_raise mbind result_bind].
  all: rewrite (decide_True (P := length _ = length _)) by lia; cbn [mbind result_bind].
  all: rewrite decide_True by (rewrite length_app, length_take, length_drop; lia).
  all: cbn [mbind result_bind].
  all: rewrite !insert_take_drop by (done || lia).
  all: do 2 f_equal; lia.
Qed.

Lemma accept_numpy_loop (n : Z) (m k : nat) :
  (k + m = N)%nat →
  Metropolis.foldlR
    (Metropolis.accept_numpy_body accept initial_positions proposed_positions
       log_psi_current log_psi_proposed) (after n k) (seq k m)
  = Ok (after n N).
Proof.
  revert k. induction m as [|m IH]; intros k Hk.
  - simpl. f_equal. f_equal. lia.
  - cbn [seq Metropolis.foldlR]. rewrite accept_numpy_body_step by lia.
    cbn [mbind result_bind]. apply IH. lia.
Qed.

(** On arrays of the shapes [step] passes, the loop of [accept_numpy]
    composes the new configuration and log densities row by row from the mask
    and adds the number of accepted particles to the count. *)
Lemma accept_numpy_selects (n : Z) :
  Metropolis.accept_numpy n accept initial_positions proposed_positions
    log_psi_current log_psi_proposed
  = Ok (sel_pos, Arr1 sel_logp, (n + count_accepted mask)%Z).
Proof.
  unfold Metropolis.accept_numpy.
  assert (after n 0 = (Metropolis.zeros_like initial_positions,
                       map (λ _ : Qc, 0) log_psi_current, n)) as <-.
  { unfold after. rewrite !take_0, !drop_0. cbn. do 2 f_equal.
    unfold count_accepted. cbn. lia. }
  destruct Hinit as [HNi _]. rewrite HNi.
  rewrite (accept_numpy_loop n N 0) by lia. cbn [mbind result_bind].
  unfold after. cbn [fst snd].
  rewrite !firstn_all2, !skipn_all2; rewrite ?app_nil_r; try done.
  - subst zeros_logp. rewrite length_map. lia.
  - subst zeros_pos. unfold Metropolis.zeros_like. rewrite length_map. lia.
  - lia.
  - subst sel_logp. rewrite (select_rows_length _ _ _ N); done.
  - subst sel_pos. rewrite (select_rows_length _ _ _ N); try done; apply Hprop.
Qed.

End accept_numpy.

Section sampler_step.
Context `{SamplerLib}.

(** A step never fails before the accept function is looked up, and the new
    state carries the step index plus one. *)
Lemma step_delta (self : Metropolis.t) (n : Z)
    (wf_squared : Matrix Qc → result (Vector Qc)) (state new_state : State) (seed : Z) :
  Metropolis.step self n wf_squared state seed = Ok new_state →
  delta new_state = (delta state + 1)%Z.
Proof.
  unfold Metropolis.step.
  destruct (Metropolis.decide_accept _ _ _ _) as [[[[P pc] pp] acc]|]; [|done].
  cbn [mbind result_bind].
  destruct (Metropolis.accept_fn self) as [fn|]; [|done]. cbn [or_raise mbind result_bind].
  destruct (Metropolis.run_accept _ _ _ _ _ _ _) as [[[np nl] na]|]; [|done].
  cbn [mbind result_bind]. by intros [= <-].
Qed.

(** With the numpy accept function, one step composes the new state as the
    specification asks: rows chosen by the mask, the count raised by the
    number of accepted particles, the step index by one. *)
Lemma step_numpy_composes (self : Metropolis.t) (n : Z)
    (wf_squared : Matrix Qc → result (Vector Qc)) (state : State) (seed : Z) (N D : nat) :
  Metropolis.accept_fn self = Some Metropolis.accept_numpy_fn →
  (∀ r, ∃ v, wf_squared r = Ok v ∧ length v = length r) →
  has_shape N D (positions state) →
  ∃ proposed prob_current prob_proposed mask,
    Metropolis.decide_accept self wf_squared state seed
    = Ok (proposed, prob_current, prob_proposed, map (λ b, [b]) mask)
    ∧ length mask = N
    ∧ Metropolis.step self n wf_squared state seed
      = Ok (mkState (select_rows mask proposed (positions state))
              (Arr1 (select_rows mask prob_proposed prob_current))
              (n + count_accepted mask) (delta state + 1)).
Proof.
  intros Hfn Hwf Hshape.
  destruct (decide_accept_on_shape self wf_squared state seed Hwf)
    as (pc & pp & acc & Hpc & Hpp & Hdec & Hlen & Hacc).
  set (P := (Metropolis.propose self state seed).1) in *.
  assert (length (positions state) = N) as HN by apply Hshape.
  assert (∃ mask, acc = map (λ b, [b]) mask) as [mask ->].
  { revert Hdec. unfold Metropolis.decide_accept.
    destruct (Metropolis.propose self state seed) as [P' g].
    destruct (wf_squared (positions state)); [|done]. cbn [mbind result_bind].
    destruct (wf_squared P'); [|done]. cbn [mbind result_bind].
    destruct (broadcast2 Qcminus _ _); [|done]. cbn [mbind result_bind].
    destruct (gen_random _ _) as [u g'].
    destruct (broadcast2 _ u _) as [m|]; [|done]. cbn [mbind result_bind].
    intros [=]. by exists m. }
  rewrite length_map in Hlen.
  exists P, pc, pp, mask. split; [done|]. split; [lia|].
  unfold Metropolis.step. rewrite Hdec, Hfn. cbn [or_raise mbind result_bind].
  cbn [Metropolis.run_accept].
  assert (has_shape N D P) as HP by (apply gen_normal_shape, Hshape).
  destruct (Hwf (positions state)) as (v1 & Hv1 & Hl1).
  destruct (Hwf P) as (v2 & Hv2 & Hl2).
  assert (length P = N) as HlP by apply HP.
  rewrite (accept_numpy_selects N D mask (positions state) P pc pp); try done.
  - congruence.
  - congruence.
  - lia.
Qed.

End sampler_step.

(** *** What [accept_jax] returns *)

Lemma mapR_length {A B} (f : A → result B) (l : list A) (l' : list B) :
  mapR f l = Ok l' → length l' = length l.
Proof.
  revert l'. induction l as [|a l IH]; intros l'; cbn [mapR].
  - by intros [= <-].
  - destruct (f a); [|done]. cbn [mbind result_bind].
    destruct (mapR f l) as [bs|]; [|done]. cbn [mbind result_bind].
    intros [= <-]. cbn [length]. by rewrite (IH bs).
Qed.

Lemma matmul_length (a b m : Matrix Qc) : matmul a b = Ok m → length m = length a.
Proof.
  unfold matmul. destruct (decide _); [|done]. intros [= <-]. by rewrite length_map.
Qed.

Lemma broadcast2_rows_length (f : Qc → Qc → Qc) (a b m : Matrix Qc) :
  length a = length b → Metropolis.broadcast2_rows f a b = Ok m → length m = length a.
Proof.
  intros Hl. unfold Metropolis.broadcast2_rows. rewrite decide_True by done.
  intros Hm%mapR_length. rewrite Hm, length_zip. lia.
Qed.

Lemma concat_column {A} (v : list A) : concat (map (λ x, [x]) v) = v.
Proof. induction v as [|x v IH]; [done|]. cbn. by rewrite IH. Qed.

(** The count that [accept_jax] returns does not depend on the count it is
    given, and the configuration it returns has one row, whatever the number
    of particles. *)
Lemma accept_jax_one_row (n : Z) (b : bool) (mask : list bool)
    (initial_positions proposed_positions new_positions : Matrix Qc)
    (log_psi_current log_psi_proposed : Vector Qc) (new_logp : ndarray) (count : Z) :
  Metropolis.accept_jax n (map (λ b, [b]) (b :: mask)) initial_positions
    proposed_positions log_psi_current log_psi_proposed
  = Ok (new_positions, new_logp, count) →
  length new_positions = 1%nat ∧ count = count_accepted (b :: mask).
Proof.
  unfold Metropolis.accept_jax.
  set (acceptT := transpose _).
  assert (length acceptT = 1%nat) as HT.
  { subst acceptT. unfold transpose. by rewrite length_map, length_seq. }
  destruct (matmul acceptT proposed_positions) as [s1|] eqn:H1; [|done].
  cbn [mbind result_bind].
  destruct (matmul _ initial_positions) as [s2|] eqn:H2; [|done].
  cbn [mbind result_bind].
  apply matmul_length in H1, H2. rewrite length_map in H2.
  destruct (Metropolis.broadcast2_rows Qcplus s1 s2) as [np|] eqn:H3; [|done].
  cbn [mbind result_bind].
  apply broadcast2_rows_length in H3; [|congruence].
  destruct (where_ _ _ _); [|done]. cbn [mbind result_bind].
  intros [= <- _ <-]. split; [congruence|].
  unfold count_accepted. by rewrite concat_column.
Qed.

(** Hence the two accept functions differ on every input of the shapes
    [step] passes with two particles or more. *)
Lemma accept_jax_differs_for_many_particles (n : Z) (N D : nat) (mask : list bool)
    (initial_positions proposed_positions : Matrix Qc)
    (log_psi_current log_psi_proposed : Vector Qc) :
  (2 ≤ N)%nat →
  has_shape N D initial_positions → has_shape N D proposed_positions →
  length log_psi_current = N → length log_psi_proposed = N → length mask = N →
  Metropolis.accept_numpy n (map (λ b, [b]) mask) initial_positions proposed_positions
    log_psi_current log_psi_proposed
  ≠ Metropolis.accept_jax n (map (λ b, [b]) mask) initial_positions proposed_positions
      log_psi_current log_psi_proposed.
Proof.
  intros HN Hi Hp Hc Hl Hm.
  rewrite (accept_numpy_selects N D mask initial_positions proposed_positions
             log_psi_current log_psi_proposed Hi Hp Hc Hl Hm n).
  intros Heq. symmetry in Heq.
  destruct mask as [|b mask]; [simpl in Hm; lia|].
  apply accept_jax_one_row in Heq as [Hrow _].
  rewrite (select_rows_length _ _ _ N) in Hrow; try done; [lia | apply Hp | apply Hi].
Qed.

(** C2 (the jax accept function breaks it). A step of a sampler bound to
    [accept_jax], from a state of two particles with five particles accepted
    so far: both particles are accepted, yet the new configuration has a
    single row, the sum of the two proposed rows, and the count is 2, not 7.
    The sampler bound to [accept_numpy] returns two rows and 7 from the same
    call. *)
Theorem step_accept_jax_collapses_rows :
  let wf_squared := VMC.prob Example.model in
  let proposed :=
    (@Metropolis.propose _ Example.sampler_lib Example.jax_sampler Example.state0 142).1 in
  let jax_step :=
    @Metropolis.step _ Example.sampler_lib Example.jax_sampler 5 wf_squared
      Example.state0 142 in
  let numpy_step :=
    @Metropolis.step _ Example.sampler_lib Example.numpy_sampler 5 wf_squared
      Example.state0 142 in
  length (positions Example.state0) = 2%nat
  ∧ positions <$> jax_step = Ok [map vsum (transpose proposed)]
  ∧ n_accepted <$> jax_step = Ok 2%Z
  ∧ delta <$> jax_step = Ok 1%Z
  ∧ positions <$> numpy_step = Ok proposed
  ∧ n_accepted <$> numpy_step = Ok 7%Z
  ∧ delta <$> numpy_step = Ok 1%Z.
Proof. repeat split; compute_done. Qed.

(** C3 (the two accept functions differ). On a mask that accepts the first
    of two particles, with five accepted before: [accept_numpy] returns the
    rows chosen by the mask, the log densities chosen by the mask and the
    count 6; [accept_jax] returns one row holding the sum of the chosen rows,
    a 2 x 2 array of log densities and the count 1. *)
Theorem accept_jax_differs_from_accept_numpy :
  let accept := [[true]; [false]] in
  let initial_positions := [[1]; [2]] in
  let proposed_positions := [[Qc_of_Z 10]; [Qc_of_Z 20]] in
  let log_psi_current := [- 1; - 2] in
  let log_psi_proposed := [Qc_of_Z (-3); Qc_of_Z (-4)] in
  Metropolis.accept_numpy 5 accept initial_positions proposed_positions
    log_psi_current log_psi_proposed
  = Ok ([[Qc_of_Z 10]; [2]], Arr1 [Qc_of_Z (-3); - 2], 6%Z)
  ∧ Metropolis.accept_jax 5 accept initial_positions proposed_positions
      log_psi_current log_psi_proposed
    = Ok ([[Qc_of_Z 12]], Arr2 [[Qc_of_Z (-3); Qc_of_Z (-4)]; [- 1; - 2]], 1%Z)
  ∧ Metropolis.accept_numpy 5 accept initial_positions proposed_positions
      log_psi_current log_psi_proposed
    ≠ Metropolis.accept_jax 5 accept initial_positions proposed_positions
        log_psi_current log_psi_proposed.
Proof. repeat split; compute_done. Qed.

(** ** Setup *)

Section setup.
Context `{Collaborators} `{!JaxRandom}.

(** The constructor and the three setters of [QS] reject an unsupported name
    at once: with a ValueError, or, for the two setters that first read the
    model, with an AttributeError when [set_wf] was not called. *)
Lemma QS_setup_rejects_unsupported_names (self : QS.t) (name : string) :
  (name ≠ "numpy" → name ≠ "jax" →
   ∀ log rng seed alpha beta time_step diffusion_coeff,
     QS.__init__ name log rng seed alpha beta time_step diffusion_coeff
     = Raise ValueError)
  ∧ (name ≠ "ho" → name ≠ "eo" →
     ∀ int_type, QS.set_hamiltonian self name int_type
                 = match QS.alg self with
                   | Some _ => Raise ValueError
                   | None => Raise AttributeError
                   end)
  ∧ (name ≠ "m" → name ≠ "mh" →
     ∀ scale, QS.set_sampler self name scale
              = match QS.alg self with
                | Some _ => Raise ValueError
                | None => Raise AttributeError
                end)
  ∧ (name ≠ "gd" → ∀ eta, QS.set_optimizer self name eta = Raise ValueError).
Proof.
  repeat split.
  - intros Hne1 Hne2 *. unfold QS.__init__. by rewrite !decide_False.
  - intros Hne1 Hne2 *. unfold QS.set_hamiltonian.
    destruct (QS.alg self); [|done]. cbn. by rewrite !decide_False.
  - intros Hne1 Hne2 *. unfold QS.set_sampler.
    destruct (QS.alg self); [|done]. cbn. by rewrite !decide_False.
  - intros Hne1 *. unfold QS.set_optimizer. by rewrite decide_False.
Qed.

End setup.

Section metropolis_setup.
Context `{SamplerLib}.

(** The dispatch at the end of [Metropolis.__init__] does not raise on a back
    end it does not know: it prints and returns a sampler whose [accept_fn]
    was never bound. *)
Lemma Metropolis_init_unsupported_backend (alg_inst : VMC.t) (rng : Z → Generator)
    (scale : Qc) (n d : nat) (seed : Z) (log : bool) (backend : string) (base : Sampler) :
  Sampler__init__ rng scale backend = Ok base →
  _backend base ≠ "numpy" → _backend base ≠ "jax" →
  Metropolis.__init__ alg_inst rng scale n d seed log backend
  = Ok (Metropolis.mk _ seed n d log alg_inst base None ["back end not supported !!!!!!"]).
Proof.
  intros Hbase Hne1 Hne2. unfold Metropolis.__init__. rewrite Hbase.
  cbn [mbind result_bind]. by rewrite !decide_False.
Qed.

(** Such a sampler fails in [step], where [self.accept_fn] is read, once the
    proposal and the accept mask have been computed. *)
Lemma step_without_accept_fn (self : Metropolis.t) (n : Z)
    (wf_squared : Matrix Qc → result (Vector Qc)) (state : State) (seed : Z) :
  Metropolis.accept_fn self = None →
  (∀ r, ∃ v, wf_squared r = Ok v ∧ length v = length r) →
  Metropolis.step self n wf_squared state seed = Raise AttributeError.
Proof.
  intros Hfn Hwf.
  destruct (decide_accept_on_shape self wf_squared state seed Hwf)
    as (pc & pp & acc & _ & _ & Hdec & _).
  unfold Metropolis.step. by rewrite Hdec, Hfn.
Qed.

End metropolis_setup.

Section setup_errors.
Context `{Collaborators}.
Context (advance : Z → Z → Z).

(** With the base constructor of the specification, [Metropolis.__init__]
    returns only on the two back ends it knows, with [accept_fn] bound and
    nothing printed; on any other name it raises the base constructor's
    ValueError and its own dispatch is not reached. *)
Lemma Metropolis_init_spec (alg_inst : VMC.t) (rng : Z → Generator) (scale : Qc)
    (n d : nat) (seed : Z) (log : bool) (backend : string) :
  @Metropolis.__init__ _ (spec_sampler_lib advance) alg_inst rng scale n d seed log backend
  = if decide (backend = "numpy") then
      Ok (Metropolis.mk _ seed n d log alg_inst (mkSampler _ rng scale backend)
            (Some Metropolis.accept_numpy_fn) [])
    else if decide (backend = "jax") then
      Ok (Metropolis.mk _ seed n d log alg_inst (mkSampler _ rng scale backend)
            (Some Metropolis.accept_jax_fn) [])
    else Raise ValueError.
Proof.
  unfold Metropolis.__init__. cbn [Sampler__init__ spec_sampler_lib].
  unfold Sampler__init__spec.
  destruct (decide (backend = "numpy")) as [->|Hn].
  { rewrite decide_True by (by left). cbn [mbind result_bind _backend].
    by rewrite decide_True. }
  destruct (decide (backend = "jax")) as [->|Hj].
  { rewrite decide_True by (by right). cbn [mbind result_bind _backend].
    rewrite decide_False by done. by rewrite decide_True. }
  rewrite decide_False by (by intros [?|?]). reflexivity.
Qed.


End setup_errors.


(** ** Training *)

Section training.
Context `{Collaborators}.

(** Every setter of [QS] that [train] goes through leaves the parameters of
    the model alone. *)
Lemma sample_keeps_params (self self' : QS.t) (n c : nat) (ps : list (Matrix Qc))
    (es : list Qc) :
  QS.sample self n c = Ok (self', ps, es) →
  VMC.params <$> QS.alg self' = VMC.params <$> QS.alg self
  ∧ QS.alpha self' = QS.alpha self
  ∧ QS._optimizer self' = QS._optimizer self.
Proof.
  unfold QS.sample.
  destruct (QS._is_initialized self); [|done]. cbn [mbind result_bind].
  repeat (match goal with
          | |- context [or_raise _ ?o] => destruct o; [|done]
          end; cbn [or_raise mbind result_bind]).
  destruct (Sampler_sample _ _ _ _) as [[[st ps'] es']|]; [|done].
  cbn [mbind result_bind]. by intros [= <- _ _].
Qed.

Lemma train_iteration_keeps_params (self self' : QS.t) (batch_size : nat) :
  QS.train_iteration batch_size self = Ok self' →
  VMC.params <$> QS.alg self' = VMC.params <$> QS.alg self.
Proof.
  unfold QS.train_iteration.
  destruct (QS.sample self batch_size 1) as [[[s1 ps] es]|] eqn:Hs; [|done].
  cbn [mbind result_bind].
  apply sample_keeps_params in Hs as (Hp & _ & _).
  destruct (QS.alg s1) as [a|] eqn:Ha; [|done]. cbn [or_raise mbind result_bind].
  destruct (VMC.grads a ps); [|done]. cbn [mbind result_bind].
  destruct (QS._optimizer s1); [|done]. cbn [or_raise mbind result_bind].
  destruct (QS.alpha s1); [|done]. cbn [or_raise mbind result_bind].
  intros [= <-]. cbn [QS.alg QS.assign_alpha]. by rewrite Ha.
Qed.

Lemma loop_keeps_params (n : nat) (self self' : QS.t) (batch_size : nat) :
  QS.loop n (QS.train_iteration batch_size) self = Ok self' →
  VMC.params <$> QS.alg self' = VMC.params <$> QS.alg self.
Proof.
  revert self. induction n as [|n IH]; intros self; cbn [QS.loop].
  - by intros [= <-].
  - destruct (QS.train_iteration batch_size self) as [s1|] eqn:Hit; [|done].
    cbn [mbind result_bind]. intros Hl.
    rewrite (IH _ Hl). by eapply train_iteration_keeps_params.
Qed.

(** [train] never writes the parameters of the model: after any number of
    iterations they are the ones the model had before. *)
Lemma train_keeps_model_params (self self' : QS.t) (max_iter batch_size : nat) (seed : Z) :
  QS.train self max_iter batch_size seed = Ok self' →
  VMC.params <$> QS.alg self' = VMC.params <$> QS.alg self.
Proof.
  unfold QS.train.
  destruct (QS._is_initialized self); [|done]. cbn [mbind result_bind].
  destruct (QS.loop _ _ _) as [s1|] eqn:Hl; [|done]. cbn [mbind result_bind].
  intros [= <-]. by apply loop_keeps_params in Hl.
Qed.

End training.

(** C1 (the write-back is missing). One training iteration with learning rate
    0.1 on the numpy back end: the optimizer step produces alpha = 0.5295807,
    kept in the orchestrator's own attribute, while the parameters of the
    model still hold 0.5; so do they after two iterations. *)
Theorem train_does_not_update_model_parameters :
  let model_alpha (qs : QS.t) := a ← QS.alg qs; VMC.params a !! "alpha" in
  QS.alpha <$> Example.trained 1 = Ok (Some (Arr1 [Q2Qc (5295807 # 10000000)]))
  ∧ model_alpha <$> Example.trained 0 = Ok (Some [Q2Qc (1 # 2)])
  ∧ model_alpha <$> Example.trained 1 = Ok (Some [Q2Qc (1 # 2)])
  ∧ model_alpha <$> Example.trained 2 = Ok (Some [Q2Qc (1 # 2)]).
Proof. repeat split; compute_done. Qed.

(** ** The two Laplacians *)

(** *** Derivatives of the Gaussian log amplitude on one particle *)

Lemma imap_imap {A B C} (f : nat → A → B) (g : nat → B → C) (l : list A) :
  imap g (imap f l) = imap (λ j x, g j (f j x)) l.
Proof.
  apply list_eq. intros i. rewrite !list_lookup_imap.
  by destruct (l !! i).
Qed.

Lemma vsum_zeros {A} (l : list A) : vsum (imap (λ _ _, 0 : Qc) l) = 0.
Proof.
  change (imap (λ _ _, 0 : Qc) l) with (imap (const (λ _ : A, 0 : Qc)) l).
  rewrite imap_const. induction l as [|x l IH]; [done|].
  cbn [fmap list_fmap vsum foldr]. fold (vsum ((λ _ : A, 0 : Qc) <$> l)).
  rewrite IH. cbn. ring.
Qed.

(** A sum in which only the term of index [b] is not zero. *)
Lemma vsum_imap_indicator {A} (G : nat → A → Qc) (l : list A) (b : nat) :
  vsum (imap (λ j x, if decide (j = b) then G j x else 0) l)
  = match l !! b with Some x => G b x | None => 0 end.
Proof.
  revert G b. induction l as [|x l IH]; intros G b; [done|].
  rewrite imap_cons. destruct b as [|b].
  - cbn [vsum foldr lookup list_lookup]. rewrite decide_True by done.
    rewrite (imap_ext _ (λ _ _, 0)).
    + fold (vsum (imap (λ (_ : nat) (_ : A), 0 : Qc) l)). rewrite vsum_zeros. cbn. ring.
    + intros i y _. cbn. by rewrite decide_False.
  - cbn [vsum foldr lookup list_lookup]. rewrite decide_False by done.
    rewrite (imap_ext _ (λ j x, if decide (j = b) then (G ∘ S) j x else 0)).
    + fold (vsum (imap (λ j x, if decide (j = b) then (G ∘ S) j x else 0) l)).
      rewrite IH. cbn. destruct (l !! b); cbn; ring.
    + intros i y _. cbn. destruct (decide (i = b)).
      * by rewrite decide_True by lia.
      * by rewrite decide_False by lia.
Qed.

(** The sum of squares run on first-order tracers. *)
Lemma vsum_squares_dual (l : list Qc) (t : nat → Qc) :
  vsum (map (λ x, n_pow x 2) (imap (λ j x, mkDual x (t j)) l))
  = mkDual (vsum (map (λ x, x * x) l)) (vsum (imap (λ j x, 2 * x * t j) l)).
Proof.
  revert t. induction l as [|x l IH]; intros t; [done|].
  rewrite imap_cons. cbn [map vsum foldr].
  fold (vsum (map (λ x : Dual Qc, n_pow x 2) (imap ((λ j x, mkDual x (t j)) ∘ S) l))).
  change ((λ j x, mkDual x (t j)) ∘ S) with (λ j (x : Qc), mkDual x ((t ∘ S) j)).
  rewrite IH. cbn. f_equal. apply (f_equal2 Qcplus); [ring | reflexivity].
Qed.

(** The second derivative of the sum of squares, off second-order tracers. *)
Lemma vsum_squares_dual2 (l : list Qc) (t1 t2 : nat → Qc) :
  tangent (tangent (vsum (map (λ x, n_pow x 2)
    (imap (λ j x, mkDual (mkDual x (t1 j)) (mkDual (t2 j) 0)) l))))
  = vsum (imap (λ j _, 2 * t1 j * t2 j) l).
Proof.
  revert t1 t2. induction l as [|x l IH]; intros t1 t2; [done|].
  rewrite !imap_cons. cbn [map vsum foldr].
  fold (vsum (map (λ x : Dual (Dual Qc), n_pow x 2)
    (imap ((λ j x, mkDual (mkDual x (t1 j)) (mkDual (t2 j) 0)) ∘ S) l))).
  change ((λ j x, mkDual (mkDual x (t1 j)) (mkDual (t2 j) 0)) ∘ S)
    with (λ j (x : Qc), mkDual (mkDual x ((t1 ∘ S) j)) (mkDual ((t2 ∘ S) j) 0)).
  cbn [n_add Dual_Num tangent]. rewrite IH. cbn.
  apply (f_equal2 Qcplus); [ring | reflexivity].
Qed.

Lemma seed_one_row {A} `{Num A} (row : Vector A) (b : nat) :
  Jax.seed [row] 0 b = [imap (λ j x, mkDual x (n_const (indicator j b))) row].
Proof.
  unfold Jax.seed. cbn [imap]. f_equal. apply imap_ext. intros j x _. cbn.
  unfold indicator. destruct (decide (j = b)).
  - by rewrite decide_True.
  - rewrite decide_False; [done|]. by intros [_ ?].
Qed.

Lemma seed_one_row_twice (row : Vector Qc) (b e : nat) :
  Jax.seed (Jax.seed [row] 0 b) 0 e
  = [imap (λ j x, mkDual (mkDual x (indicator j b)) (mkDual (indicator j e) 0)) row].
Proof. by rewrite (seed_one_row row b), seed_one_row, imap_imap. Qed.

Lemma sum_indicator_row (G : Qc → Qc) (row : Vector Qc) (b : nat) (x : Qc) :
  row !! b = Some x →
  vsum (imap (λ j y, G y * indicator j b) row) = G x.
Proof.
  intros Hb.
  rewrite (imap_ext _ (λ j y, if decide (j = b) then G y else 0)).
  - by rewrite vsum_imap_indicator, Hb.
  - intros j y _. cbn. unfold indicator. destruct (decide (j = b)); ring.
Qed.

(** [jax.grad] of the summed log amplitude of one particle is the analytic
    gradient. *)
Lemma grad_wf_closure_jax_one_particle (row : Vector Qc) (alpha : Qc) :
  VMC.grad_wf_closure_jax [row] alpha = VMC.grad_wf_closure [row] alpha.
Proof.
  unfold VMC.grad_wf_closure_jax, VMC.grad_wf_closure, Jax.grad.
  cbn [imap map]. f_equal. rewrite <- (imap_const (λ x, - 2 * alpha * x)).
  apply imap_ext. intros b x Hb. cbn [const].
  rewrite seed_one_row. unfold VMC.wf_closure, sum_axis1, msquare. cbn [map].
  rewrite vsum_squares_dual.
  rewrite (imap_ext _ (λ j y, (2 * y) * indicator j b)) by done.
  rewrite (sum_indicator_row (λ y, 2 * y) row b x Hb).
  cbn. ring.
Qed.

Lemma of_nat_S (n : nat) : VMC.of_nat (S n) = VMC.of_nat n + 1.
Proof.
  unfold VMC.of_nat. by rewrite Nat2Z.inj_succ, <- Z.add_1_r, Z2Qc_inj_add, Z2Qc_inj_1.
Qed.

Lemma vsum_imap_const {A} (c : Qc) (l : list A) :
  vsum (imap (λ _ _, c) l) = c * VMC.of_nat (length l).
Proof.
  change (imap (λ _ _, c) l) with (imap (const (λ _ : A, c)) l).
  rewrite imap_const. induction l as [|x l IH].
  - cbn [fmap list_fmap vsum foldr length]. unfold VMC.of_nat.
    change (Z.of_nat 0) with 0%Z. rewrite Z2Qc_inj_0. cbn. ring.
  - cbn [fmap list_fmap vsum foldr length]. fold (vsum ((λ _ : A, c) <$> l)).
    rewrite IH, of_nat_S. cbn. ring.
Qed.

Lemma vsum_singleton (x : Qc) : vsum [x] = x.
Proof. cbn. ring. Qed.

(** The trace of the Hessian of the log amplitude of one particle in [d]
    dimensions is [-2 * a * d]. *)
Lemma hessian_wf_one_particle (row : Vector Qc) (a : Qc) :
  let d := length row in
  ∃ hess, reshape d d (Jax.hessian (λ A _ x, VMC.wf_closure x (n_const a)) [row]) = Ok hess
          ∧ trace hess = - 2 * a * VMC.of_nat d.
Proof.
  intros d. unfold Jax.hessian.
  rewrite wf_closure_length. cbn [length seq map concat].
  rewrite app_nil_r.
  assert (Jax.coords [row] = imap (λ b _, (0%nat, b)) row) as ->.
  { unfold Jax.coords. cbn [imap concat]. by rewrite app_nil_r. }
  set (C := imap (λ (b : nat) (_ : Qc), (0%nat, b)) row).
  set (M := map _ C).
  assert (has_shape d d M) as HM.
  { subst M C d. split; [by rewrite length_map, length_imap|].
    apply Forall_forall. intros r' [ab [-> _]]%list_elem_of_fmap.
    by rewrite length_map, length_imap. }
  exists M. split.
  { unfold reshape. rewrite (concat_length_shape d d M HM).
    rewrite decide_True by done. by rewrite rows_of_concat. }
  unfold trace. subst M C.
  rewrite imap_fmap, imap_imap.
  rewrite (imap_ext _ (λ _ _, - a * 2)).
  { rewrite vsum_imap_const. subst d. ring. }
  intros b x Hb. cbn [compose fst snd].
  rewrite list_lookup_fmap, list_lookup_imap, Hb. cbn [fmap option_fmap option_map default].
  rewrite seed_one_row_twice.
  unfold VMC.wf_closure, sum_axis1, msquare. cbn [map lookup list_lookup default].
  cbn [n_mul n_opp n_const Dual_Num tangent primal].
  rewrite vsum_squares_dual2.
  rewrite (imap_ext _ (λ j y, (λ _, 2) y * indicator j b)).
  - rewrite (sum_indicator_row (λ _, 2) row b x Hb). cbn. ring.
  - intros j y _. cbn. unfold indicator. destruct (decide (j = b)); ring.
Qed.

Lemma vsum_scaled_squares (alpha : Qc) (row : Vector Qc) :
  vsum (map (λ x, n_pow x 2) (map (λ x, - 2 * alpha * x) row))
  = Qc_of_Z 4 * (alpha * alpha) * vsum (map (λ x, x * x) row).
Proof.
  assert (Qc_of_Z 4 = 2 * 2) as -> by (by apply Qc_is_canon).
  induction row as [|x row IH].
  - cbn. ring.
  - cbn [map vsum foldr].
    fold (vsum (map (λ x : Qc, n_pow x 2) (map (λ x : Qc, - 2 * alpha * x) row))).
    fold (vsum (map (λ x : Qc, x * x) row)).
    rewrite IH. cbn. ring.
Qed.

(** For one particle and the stored alpha the two Laplacians agree, on either
    back end. *)
Lemma laplacian_closures_agree_one_particle (self : VMC.t) (row : Vector Qc) (alpha : Qc) :
  length row = VMC._dim self → (0 < VMC._dim self)%nat →
  VMC.get_alpha (VMC.params self) = Ok alpha →
  VMC.laplacian_closure_jax self [row] alpha = VMC.laplacian_closure self [row] alpha.
Proof.
  intros Hlen Hd Ha.
  assert (has_shape 1 (VMC._dim self) [row]) as Hs.
  { split; [done|]. by constructor. }
  rewrite (laplacian_closure_on_shape self 1 (VMC._dim self) [row] alpha Hs eq_refl Hd).
  unfold VMC.laplacian_closure_jax.
  assert (reshape 1 (VMC._dim self) (concat [row]) = Ok [row]) as ->.
  { unfold reshape. rewrite (concat_length_shape 1 _ [row] Hs).
    rewrite decide_True by done. by rewrite rows_of_concat. }
  cbn [mbind result_bind]. rewrite Ha. cbn [mbind result_bind].
  destruct (hessian_wf_one_particle row alpha) as (hess & Hh & Htr).
  rewrite <- Hlen, Hh. cbn [mbind result_bind]. rewrite Htr.
  assert (VMC.bound_grad_wf_closure self [row] alpha = VMC.grad_wf_closure [row] alpha)
    as ->.
  { unfold VMC.bound_grad_wf_closure. destruct (VMC.backend self); [done|].
    apply grad_wf_closure_jax_one_particle. }
  f_equal. unfold gaussian_laplacian, VMC.grad_wf_closure, msum, msquare.
  cbn [map concat]. rewrite app_nil_r, vsum_scaled_squares, vsum_singleton.
  ring.
Qed.

(** With two particles or more the autodiff closure raises at its
    [reshape(1, d)], where the analytic closure returns the Gaussian value. *)
Lemma laplacian_closure_jax_raises_for_many_particles (self : VMC.t) (N D : nat)
    (r : Matrix Qc) (alpha : Qc) :
  has_shape N D r → VMC._dim self = D → (0 < D)%nat → N ≠ 1%nat →
  VMC.laplacian_closure_jax self r alpha = Raise ShapeError
  ∧ VMC.laplacian_closure self r alpha = Ok (gaussian_laplacian D r alpha).
Proof.
  intros Hs Hdim HD HN. split; [|by eapply laplacian_closure_on_shape].
  unfold VMC.laplacian_closure_jax, reshape.
  rewrite Hdim, (concat_length_shape N D r Hs).
  rewrite decide_False; [done|]. nia.
Qed.

(** C6 (the autodiff Laplacian breaks it). On a model of dimension 3 holding
    alpha = 0.5: for a configuration of two particles the analytic closure
    returns 10 and the autodiff closure raises on its [reshape(1, d)]; for one
    particle and the argument alpha = 1/3 the analytic closure returns 38/9
    and the autodiff closure 29/9, its Hessian term being taken at the stored
    alpha.  For one particle and the stored alpha both return 11. *)
Theorem laplacian_closure_jax_differs :
  let self := VMC.mk jax {[ "alpha" := [Q2Qc (1 # 2)] ]} None 142 2 3 None in
  let two_particles := [[1; 2; Q2Qc 3]; [0; 1; - 1]] in
  let one_particle := [[1; 2; Q2Qc 3]] in
  VMC.laplacian_closure self two_particles (Q2Qc (1 # 2)) = Ok (Qc_of_Z 10)
  ∧ VMC.laplacian_closure_jax self two_particles (Q2Qc (1 # 2)) = Raise ShapeError
  ∧ VMC.laplacian_closure self one_particle (Q2Qc (1 # 3)) = Ok (Q2Qc (38 # 9))
  ∧ VMC.laplacian_closure_jax self one_particle (Q2Qc (1 # 3)) = Ok (Q2Qc (29 # 9))
  ∧ VMC.laplacian_closure self one_particle (Q2Qc (1 # 2)) = Ok (Qc_of_Z 11)
  ∧ VMC.laplacian_closure_jax self one_particle (Q2Qc (1 # 2)) = Ok (Qc_of_Z 11).
Proof. repeat split; compute_done. Qed.

(** * Further properties of the code *)

(** ** The derivatives by automatic differentiation *)

Lemma tangent_vsum (l : list (Dual Qc)) : tangent (vsum l) = vsum (map tangent l).
Proof.
  induction l as [|x l IH]; [done|].
  cbn [map vsum foldr]. fold (vsum l). fold (vsum (map tangent l)).
  rewrite <- IH. reflexivity.
Qed.

Lemma vsum_imap_ext_zero {A} (f : nat → A → Qc) (l : list A) :
  (∀ i x, l !! i = Some x → f i x = 0) → vsum (imap f l) = 0.
Proof.
  intros Hf. rewrite (imap_ext _ (λ _ _, 0) l Hf). apply vsum_zeros.
Qed.

(** The derivative of the summed log amplitude in coordinate [(a, b)]. *)
Lemma tangent_sum_wf_closure (r : Matrix Qc) (alpha : Qc) (a b : nat) (row : Vector Qc)
    (x : Qc) :
  r !! a = Some row → row !! b = Some x →
  tangent (vsum (VMC.wf_closure (Jax.seed r a b) (n_const alpha))) = - 2 * alpha * x.
Proof.
  intros Ha Hb. rewrite tangent_vsum.
  unfold VMC.wf_closure, sum_axis1, msquare, Jax.seed.
  rewrite !map_map.
  change (map ?f (imap ?g r)) with (f <$> imap g r). rewrite fmap_imap.
  rewrite (imap_ext _ (λ i (row_i : Vector Qc),
             if decide (i = a) then
               - alpha * match row_i !! b with Some y => 2 * y | None => 0 end
             else 0)).
  - rewrite vsum_imap_indicator, Ha, Hb. ring.
  - intros i row_i _. cbn [compose].
    rewrite (imap_ext _ (λ j y, mkDual y (if decide (j = b) then indicator i a else 0))).
    2:{ intros j y _. cbn. unfold indicator.
        destruct (decide (i = a)), (decide (j = b)).
        - by rewrite decide_True.
        - rewrite decide_False; [done|]. by intros [_ ?].
        - rewrite decide_False; [done|]. by intros [? _].
        - rewrite decide_False; [done|]. by intros [? _]. }
    rewrite vsum_squares_dual. cbn [n_mul n_opp n_const Dual_Num Qc_Num tangent primal].
    rewrite (imap_ext _ (λ j y, if decide (j = b) then 2 * y * indicator i a else 0)).
    2:{ intros j y _. cbn. destruct (decide (j = b)); ring. }
    rewrite vsum_imap_indicator. unfold indicator.
    destruct (decide (i = a)); destruct (row_i !! b); cbn [n_add Qc_Num]; ring.
Qed.

(** [jax.grad] of the summed log amplitude is the analytic gradient, for any
    number of particles. *)
Lemma grad_wf_closure_jax_analytic (r : Matrix Qc) (alpha : Qc) :
  VMC.grad_wf_closure_jax r alpha = VMC.grad_wf_closure r alpha.
Proof.
  unfold VMC.grad_wf_closure_jax, VMC.grad_wf_closure, Jax.grad.
  etrans; [|apply (imap_const (map (λ x, - 2 * alpha * x)) r)].
  apply imap_ext. intros a row Ha. cbn [const].
  etrans; [|apply (imap_const (λ x, - 2 * alpha * x) row)].
  apply imap_ext. intros b x Hb. cbn [const].
  by apply (tangent_sum_wf_closure r alpha a b row x).
Qed.

(** X1. The attribute [self.grad_wf_closure] returns the analytic gradient
    [-2 * alpha * r] on either back end: [jax.grad] of the summed log
    amplitude is that gradient, for any number of particles. *)
Theorem grad_wf_closure_backends_agree (self : VMC.t) (r : Matrix Qc) (alpha : Qc) :
  VMC.grad_wf_closure_jax r alpha = VMC.grad_wf_closure r alpha
  ∧ VMC.bound_grad_wf_closure self r alpha = map (map (λ x, - 2 * alpha * x)) r.
Proof.
  split; [apply grad_wf_closure_jax_analytic|].
  unfold VMC.bound_grad_wf_closure. destruct (VMC.backend self); [done|].
  apply grad_wf_closure_jax_analytic.
Qed.

(** The sum of squares run on tracers of constants. *)
Lemma vsum_squares_lift (row : Vector Qc) :
  vsum (map (λ x, n_pow x 2) (map (λ x : Qc, mkDual x (n_const 0)) row))
  = mkDual (vsum (map (λ x, x * x) row)) 0.
Proof.
  induction row as [|x row IH]; [done|].
  cbn [map vsum foldr].
  fold (vsum (map (λ x : Dual Qc, n_pow x 2) (map (λ x : Qc, mkDual x (n_const 0)) row))).
  fold (vsum (map (λ x : Qc, x * x) row)).
  rewrite IH. cbn. f_equal. ring.
Qed.

(** The parameter derivative of the summed log amplitude of one
    configuration, with the positions held constant. *)
Lemma tangent_sum_wf_closure_alpha (pos : Matrix Qc) (alpha : Qc) :
  tangent (vsum (VMC.wf_closure (Jax.lift pos) (mkDual alpha 1)))
  = vsum (map Qcopp (sum_axis1 (msquare pos))).
Proof.
  rewrite tangent_vsum. unfold VMC.wf_closure, sum_axis1, msquare, Jax.lift.
  rewrite !map_map. f_equal. apply map_ext. intros row.
  rewrite vsum_squares_lift.
  cbn [n_mul n_opp n_const Dual_Num Qc_Num tangent primal n_add].
  rewrite (map_ext (λ x : Qc, n_pow x 2) (λ x, x * x)) by (intros; apply Qc_pow2).
  ring.
Qed.

(** X2. The two implementations of the parameter gradient return the same
    numbers, one per configuration of the batch.  The analytic closure
    returns them as a 1-d array; the autodiff closure returns them in the
    shape [(batch,) + alpha.shape]: a 1-d array for a 0-d [alpha], a column
    for the 1-d array of one element that the model holds and [grads]
    passes. *)
Theorem grads_closure_jax_analytic (r : list (Matrix Qc)) (alpha : VMC.alpha_array) :
  ∃ g : Vector Qc,
    VMC.grads_closure r alpha = Arr1 g
    ∧ VMC.grads_closure_jax r alpha
      = match alpha with
        | VMC.Alpha0d _ => Arr1 g
        | VMC.Alpha1d _ => Arr2 (map (λ x, [x]) g)
        end
    ∧ length g = length r.
Proof.
  eexists. split; [reflexivity|]. split.
  - unfold VMC.grads_closure_jax. destruct alpha as [a|a]; cbn [VMC.alpha_value]; f_equal.
    + apply map_ext. intros pos. apply tangent_sum_wf_closure_alpha.
    + rewrite map_map. apply map_ext. intros pos. f_equal.
      apply tangent_sum_wf_closure_alpha.
  - by rewrite length_map.
Qed.

(** ** The analytic Laplacian on any grouping of the coordinates *)

Lemma concat_rows_of {A} (n d : nat) (flat : list A) :
  concat (rows_of n d flat) = take (n * d) flat.
Proof.
  unfold rows_of. induction n as [|n IH]; [done|].
  rewrite seq_S, map_app, concat_app, IH. cbn [map concat Nat.add].
  rewrite app_nil_r, take_take_drop. f_equal. lia.
Qed.

Lemma of_nat_mul (n m : nat) : VMC.of_nat (n * m) = VMC.of_nat n * VMC.of_nat m.
Proof. unfold VMC.of_nat. by rewrite Nat2Z.inj_mul, Z2Qc_inj_mul. Qed.

Lemma vsum_cons (x : Qc) (l : Vector Qc) : vsum (x :: l) = x + vsum l.
Proof. reflexivity. Qed.

Lemma vsum_app (l k : Vector Qc) : vsum (l ++ k) = vsum l + vsum k.
Proof.
  induction l as [|x l IH]; cbn [app vsum foldr].
  - fold (vsum k). cbn. ring.
  - fold (vsum (l ++ k)). fold (vsum l). rewrite IH. cbn. ring.
Qed.

(** The sum over rows of [c * (sum of squares of the row) - k]. *)
Lemma vsum_rows_affine (c k : Qc) (m : Matrix Qc) :
  vsum (map (λ s, c * s - k) (sum_axis1 (msquare m)))
  = c * vsum (map (λ x, x * x) (concat m)) - k * VMC.of_nat (length m).
Proof.
  unfold sum_axis1, msquare. induction m as [|row m IH].
  - cbn [map concat length vsum foldr]. unfold VMC.of_nat.
    change (Z.of_nat 0) with 0%Z. rewrite Z2Qc_inj_0. cbn. ring.
  - cbn [map concat length].
    rewrite vsum_cons, IH, map_app, vsum_app, of_nat_S.
    rewrite (map_ext (λ x : Qc, n_pow x 2) (λ x, x * x)) by (intros; apply Qc_pow2).
    ring.
Qed.

Lemma laplacian_closure_any_grouping_value (self : VMC.t) (r : Matrix Qc) (alpha : Qc) :
  VMC._dim self ≠ 0%nat → (length (concat r) `mod` VMC._dim self)%nat = 0%nat →
  VMC.laplacian_closure self r alpha
  = Ok (Qc_of_Z 4 * (alpha * alpha) * vsum (map (λ x, x * x) (concat r))
        - 2 * alpha * VMC.of_nat (length (concat r))).
Proof.
  intros Hd Hm. unfold VMC.laplacian_closure, reshape_infer.
  rewrite decide_False, decide_True by done. cbn [mbind result_bind].
  set (flat := concat r) in *.
  set (d := VMC._dim self) in *. set (n := (length flat `div` d)%nat).
  assert (length flat = (n * d)%nat) as Hl.
  { subst n. pose proof (Nat.div_mod_eq (length flat) d). lia. }
  rewrite msum_column, vsum_rows_affine, concat_rows_of, <- Hl, firstn_all.
  f_equal. unfold rows_of. rewrite length_map, length_seq.
  rewrite Hl, of_nat_mul. cbn [Qcpower]. ring.
Qed.

(** X3. [laplacian_closure] on any array: it raises when the dimension of the
    model is 0 or does not divide the number of coordinates, and otherwise
    returns 4·alpha²·(sum of all squares) − 2·alpha·(number of coordinates),
    however the coordinates are grouped into rows. *)
Theorem laplacian_closure_any_grouping (self : VMC.t) (r : Matrix Qc) (alpha : Qc) :
  VMC.laplacian_closure self r alpha
  = if decide (VMC._dim self ≠ 0%nat
               ∧ (length (concat r) `mod` VMC._dim self)%nat = 0%nat)
    then Ok (Qc_of_Z 4 * (alpha * alpha) * vsum (map (λ x, x * x) (concat r))
             - 2 * alpha * VMC.of_nat (length (concat r)))
    else Raise ShapeError.
Proof.
  destruct (decide _) as [[Hd Hm]|Hno].
  - by apply laplacian_closure_any_grouping_value.
  - unfold VMC.laplacian_closure, reshape_infer.
    destruct (decide (VMC._dim self = 0%nat)); [done|].
    destruct (decide _); [|done]. by destruct Hno.
Qed.

(** ** Invariants of a step on the numpy path *)

Lemma select_rows_fmap {A B} (f : A → B) (mask : list bool) (p c : list A) :
  select_rows mask (f <$> p) (f <$> c) = f <$> select_rows mask p c.
Proof.
  unfold select_rows. revert p c.
  induction mask as [|b mask IH]; intros [|x p] [|y c]; try done.
  cbn. f_equal; [by destruct b|]. apply IH.
Qed.

Lemma select_rows_shape {A} (mask : list bool) (p c : Matrix A) (N D : nat) :
  length mask = N → has_shape N D p → has_shape N D c →
  has_shape N D (select_rows mask p c).
Proof.
  intros Hm [Hp HDp] [Hc HDc]. split; [by apply select_rows_length|].
  apply Forall_lookup_2. intros i row. unfold select_rows.
  rewrite lookup_zip_with. destruct (mask !! i) as [b|]; [|done]. cbn.
  rewrite lookup_zip_with. destruct (p !! i) as [x|] eqn:Hx; [|done]. cbn.
  destruct (c !! i) as [y|] eqn:Hy; [|done]. cbn. intros [= <-].
  destruct b; cbn; [by eapply Forall_lookup_1 in HDp | by eapply Forall_lookup_1 in HDc].
Qed.

Lemma count_accepted_bounds (mask : list bool) :
  (0 ≤ count_accepted mask ≤ Z.of_nat (length mask))%Z.
Proof.
  unfold count_accepted. pose proof (length_filter (λ b, b = true) mask). lia.
Qed.

(** The log density is a function of each particle's own row. *)
Lemma prob_closure_rowwise (r : Matrix Qc) (alpha : Qc) :
  VMC.prob_closure r alpha
  = (λ row, 2 * (- alpha * vsum (map (λ x, n_pow x 2) row))) <$> r.
Proof.
  unfold VMC.prob_closure, VMC.wf_closure, sum_axis1, msquare.
  by rewrite !map_map.
Qed.

Section numpy_step_invariants.
Context `{SamplerLib}.

(** X4. One step of a sampler bound to [accept_numpy], with the log density of a
    model that holds alpha: the step succeeds, the new configuration has the
    shape of the old one, and the new log density is the log density of the
    new configuration, whatever log density the old state carried. *)
Theorem step_numpy_keeps_state_consistent (self : Metropolis.t) (alg : VMC.t) (alpha : Qc)
    (n : Z) (state : State) (seed : Z) (N D : nat) :
  Metropolis.accept_fn self = Some Metropolis.accept_numpy_fn →
  VMC.get_alpha (VMC.params alg) = Ok alpha →
  has_shape N D (positions state) →
  ∃ new_state,
    Metropolis.step self n (VMC.prob alg) state seed = Ok new_state
    ∧ has_shape N D (positions new_state)
    ∧ logp new_state = Arr1 (VMC.prob_closure (positions new_state) alpha).
Proof.
  intros Hfn Ha Hshape.
  assert (∀ r, VMC.prob alg r = Ok (VMC.prob_closure r alpha)) as Hprob.
  { intros r. unfold VMC.prob. by rewrite Ha. }
  assert (∀ r, ∃ v, VMC.prob alg r = Ok v ∧ length v = length r) as Hwf.
  { intros r. eexists. split; [apply Hprob | apply prob_closure_length]. }
  destruct (step_numpy_composes self n (VMC.prob alg) state seed N D Hfn Hwf Hshape)
    as (P & pc & pp & mask & Hdec & Hlen & Hstep).
  eexists. split; [exact Hstep|]. cbn [positions logp].
  assert (P = (Metropolis.propose self state seed).1
          ∧ pc = VMC.prob_closure (positions state) alpha
          ∧ pp = VMC.prob_closure P alpha) as (HP & -> & ->).
  { revert Hdec. unfold Metropolis.decide_accept.
    destruct (Metropolis.propose self state seed) as [P' g].
    rewrite !Hprob. cbn [mbind result_bind].
    destruct (broadcast2 Qcminus _ _); [|done]. cbn [mbind result_bind].
    destruct (gen_random _ _) as [u g'].
    destruct (broadcast2 _ u _); [|done]. cbn [mbind result_bind].
    intros [= <- <- <- _]. done. }
  split.
  - apply select_rows_shape; [done| |done].
    rewrite HP. apply gen_normal_shape, Hshape.
  - f_equal. rewrite !prob_closure_rowwise. apply select_rows_fmap.
Qed.

(** The counters of such a step: the count of accepted particles grows by at
    least 0 and at most the number of particles, the step index by one. *)
Lemma step_numpy_counters (self : Metropolis.t) (n : Z)
    (wf_squared : Matrix Qc → result (Vector Qc)) (state new_state : State) (seed : Z)
    (N D : nat) :
  Metropolis.accept_fn self = Some Metropolis.accept_numpy_fn →
  (∀ r, ∃ v, wf_squared r = Ok v ∧ length v = length r) →
  has_shape N D (positions state) →
  Metropolis.step self n wf_squared state seed = Ok new_state →
  (n ≤ n_accepted new_state ≤ n + Z.of_nat N)%Z
  ∧ delta new_state = (delta state + 1)%Z.
Proof.
  intros Hfn Hwf Hshape Hstep.
  destruct (step_numpy_composes self n wf_squared state seed N D Hfn Hwf Hshape)
    as (P & pc & pp & mask & _ & Hlen & Hstep').
  rewrite Hstep' in Hstep. injection Hstep as <-. cbn [n_accepted delta].
  pose proof (count_accepted_bounds mask). split; lia.
Qed.

End numpy_step_invariants.

(** ** [accept_jax] on a single particle *)

Lemma transpose_one_row {A} (row : Vector A) : transpose [row] = map (λ x, [x]) row.
Proof.
  unfold transpose. cbn [ncols]. apply list_eq. intros i.
  rewrite !list_lookup_fmap.
  destruct (decide (i < length row)%nat) as [Hi|Hi].
  - rewrite lookup_seq_lt by done. cbn.
    destruct (lookup_lt_is_Some_2 row i Hi) as [x Hx]. by rewrite Hx.
  - rewrite lookup_seq_ge by lia. by rewrite lookup_ge_None_2 by lia.
Qed.

Lemma zip_with_blend (b : bool) (p c : Vector Qc) :
  length p = length c →
  zip_with Qcplus (map (λ col, dot [of_bool b] col) (map (λ x, [x]) p))
                  (map (λ col, dot [1 - of_bool b] col) (map (λ x, [x]) c))
  = if b then p else c.
Proof.
  revert c. induction p as [|x p IH]; intros [|y c] Hl; try done.
  - by destruct b.
  - cbn [map zip_with]. injection Hl as Hl. rewrite (IH c Hl).
    destruct b; cbn; f_equal; ring.
Qed.

(** X5. For one particle [accept_jax] returns the proposed row when the mask
    holds and the current row otherwise, the matching log density as a 1 x 1
    array, and the number accepted in this step as the count. *)
Theorem accept_jax_one_particle (n : Z) (b : bool) (c p : Vector Qc) (lc lp : Qc) :
  length p = length c →
  Metropolis.accept_jax n [[b]] [c] [p] [lc] [lp]
  = Ok ([if b then p else c], Arr2 [[if b then lp else lc]], if b then 1%Z else 0%Z).
Proof.
  intros Hl. unfold Metropolis.accept_jax.
  assert (transpose (map (map of_bool) [[b]]) = [[of_bool b]]) as -> by done.
  unfold matmul. cbn [map length].
  rewrite !decide_True by (by repeat constructor).
  cbn [mbind result_bind map]. rewrite !transpose_one_row.
  unfold Metropolis.broadcast2_rows. cbn [length]. rewrite decide_True by done.
  cbn [zip zip_with mapR fst snd].
  rewrite broadcast2_same_length by (by rewrite !length_map).
  cbn [mbind result_bind]. rewrite zip_with_blend by done.
  destruct b; reflexivity.
Qed.

(** ** Construction of the model *)

Lemma initialize_variational_params_stored (alpha : option Qc) :
  (if VMC.truthy alpha then VMC._initialize_variational_params alpha
   else VMC._initialize_variational_params None)
  = {[ "alpha" := [stored_alpha alpha] ]}.
Proof.
  destruct alpha as [a|]; [|done]. cbn [VMC.truthy stored_alpha].
  destruct (bool_decide (a ≠ 0)) eqn:Ha; [|done].
  cbn [VMC._initialize_variational_params VMC.truthy]. by rewrite Ha.
Qed.

Lemma get_alpha_singleton (a : Qc) : VMC.get_alpha {[ "alpha" := [a] ]} = Ok a.
Proof. unfold VMC.get_alpha. by rewrite lookup_singleton_eq. Qed.

Section construction.
Context `{JaxRandom}.

(** Every attribute of a freshly constructed model. *)
Lemma VMC_init_fields (n d : nat) (seed : Z) (backend : string) (alpha beta : option Qc)
    (b : Backend) :
  VMC._configure_backend None backend = Ok b →
  VMC.__init__ n d (Some seed) backend alpha beta
  = Ok (VMC.mk b {[ "alpha" := [stored_alpha alpha] ]}
          (if VMC.truthy beta then beta else None) seed n d None).
Proof.
  intros Hb. unfold VMC.__init__. rewrite Hb. cbn [mbind result_bind].
  rewrite initialize_variational_params_stored.
  unfold VMC._initialize_vars. cbn [VMC.set_dims VMC.params].
  by rewrite get_alpha_singleton.
Qed.

Lemma configure_backend_supported (backend : string) :
  backend = "numpy" ∨ backend = "jax" → ∃ b, VMC._configure_backend None backend = Ok b.
Proof. intros [-> | ->]; eexists; reflexivity. Qed.

(** X6. A back end name that is neither "numpy" nor "jax" stops the constructor
    with an AttributeError, whatever the other arguments: the constructor
    calls [_configure_backend] before any attribute is assigned, and the
    message of the intended ValueError reads [self.backend].  The ValueError
    is what the method raises once the attribute exists. *)
Theorem VMC_init_unsupported_backend (n d : nat) (seed : option Z) (backend : string)
    (alpha beta : option Qc) :
  backend ≠ "numpy" → backend ≠ "jax" →
  VMC.__init__ n d seed backend alpha beta = Raise AttributeError
  ∧ ∀ b, VMC._configure_backend (Some b) backend = Raise ValueError.
Proof.
  intros Hn Hj. unfold VMC.__init__, VMC._configure_backend.
  rewrite !decide_False by done. split; [reflexivity|].
  intros b. by rewrite !decide_False.
Qed.

(** A model constructed without a truthy [beta] has no attribute [beta]:
    [wf_eo] raises an AttributeError on every configuration. *)
Lemma wf_eo_without_beta (n d : nat) (seed : Z) (backend : string) (alpha beta : option Qc)
    (self : VMC.t) (r : Matrix Qc) :
  VMC.__init__ n d (Some seed) backend alpha beta = Ok self →
  VMC.truthy beta = false →
  VMC.wf_eo self r = Raise AttributeError.
Proof.
  intros Hinit Hbeta.
  destruct (VMC._configure_backend None backend) as [b|e] eqn:Hb.
  - rewrite (VMC_init_fields n d seed backend alpha beta b Hb) in Hinit.
    injection Hinit as <-. unfold VMC.wf_eo. cbn [VMC.params].
    rewrite get_alpha_singleton. cbn [mbind result_bind].
    unfold VMC.wf_closure_eo. cbn [VMC.beta]. by rewrite Hbeta.
  - unfold VMC.__init__ in Hinit. by rewrite Hb in Hinit.
Qed.

End construction.

(** X7. For one particle with at least one coordinate and [beta = 1], the
    elliptic log amplitude is the isotropic one. *)
Theorem wf_closure_eo_isotropic_one_particle (self : VMC.t) (x : Qc) (rest : Vector Qc)
    (alpha : Qc) :
  VMC.beta self = Some 1 →
  VMC.wf_closure_eo self [x :: rest] alpha = Ok (VMC.wf_closure [x :: rest] alpha).
Proof.
  intros Hb. unfold VMC.wf_closure_eo, VMC.wf_closure, VMC.first_column.
  rewrite Hb. cbn [or_raise mbind result_bind mapR lookup list_lookup].
  unfold sum_axis1, msquare. cbn [map drop]. f_equal. f_equal.
  rewrite drop_0, !vsum_cons. cbn. ring.
Qed.


(** ** The life cycle of the orchestrator *)

Section life_cycle.
Context `{Collaborators} `{!JaxRandom}.

Lemma QS_init_backend (backend : string) (log : bool) (rng : option (Z → Generator))
    (seed : option Z) (alpha beta time_step diffusion_coeff : option Qc) (self : QS.t) :
  QS.__init__ backend log rng seed alpha beta time_step diffusion_coeff = Ok self →
  (backend = "numpy" ∨ backend = "jax")
  ∧ QS._backend self = backend ∧ QS._init_alpha self = alpha ∧ QS._seed self = seed
  ∧ QS._is_initialized_ self = false ∧ QS.alg self = None.
Proof.
  unfold QS.__init__.
  destruct (decide (backend = "numpy")) as [->|Hn].
  { cbn [mbind result_bind]. intros [= <-]. cbn. tauto. }
  destruct (decide (backend = "jax")) as [->|Hj]; [|done].
  cbn [mbind result_bind]. intros [= <-]. cbn. tauto.
Qed.

(** X8. On an object the constructor returned, [set_wf("vmc", n, d)]
    depends on the seed the constructor was given.  With an integer seed it
    succeeds and leaves the object initialized, with the same alpha (the
    argument if truthy, else 0.5) in the model and in the orchestrator's own
    attribute, and with a chain state at step 0, count 0, whose log density
    is that of its positions.  With the default seed [None] it raises the
    TypeError of [random.PRNGKey], before the initialized flag is set. *)
Theorem set_wf_after_init (backend : string) (log : bool) (rng : option (Z → Generator))
    (seed : option Z) (alpha beta time_step diffusion_coeff : option Qc) (self : QS.t)
    (n d : nat) :
  QS.__init__ backend log rng seed alpha beta time_step diffusion_coeff = Ok self →
  match seed with
  | Some _ =>
      ∃ self' alg s,
        QS.set_wf self "vmc" n d = Ok self'
        ∧ QS._is_initialized_ self' = true
        ∧ QS._N self' = Some n ∧ QS._dim self' = Some d
        ∧ QS.alg self' = Some alg
        ∧ VMC.params alg = {[ "alpha" := [stored_alpha alpha] ]}
        ∧ QS.alpha self' = Some (Arr1 [stored_alpha alpha])
        ∧ VMC._N alg = n ∧ VMC._dim alg = d
        ∧ VMC.state alg = Some s
        ∧ logp s = Arr1 (VMC.prob_closure (positions s) (stored_alpha alpha))
        ∧ n_accepted s = 0%Z ∧ delta s = 0%Z
  | None =>
      QS.set_wf self "vmc" n d = Raise TypeError
      ∧ QS._is_initialized_ self = false ∧ QS.alg self = None
  end.
Proof.
  intros Hinit.
  apply QS_init_backend in Hinit as (Hb & Hback & Halpha & Hseed & Hni & Halg).
  destruct (configure_backend_supported backend Hb) as [b Hcb].
  unfold QS.set_wf. rewrite Hback, Halpha, Hseed.
  destruct seed as [seed|].
  - rewrite (VMC_init_fields n d seed backend alpha None b Hcb).
    cbn [mbind result_bind]. unfold VMC._initialize_vars.
    cbn [VMC.set_dims VMC.params]. rewrite get_alpha_singleton.
    cbn [mbind result_bind]. rewrite decide_True by done.
    eexists _, _, _. split; [reflexivity|].
    cbn. rewrite lookup_singleton_eq. repeat split; reflexivity.
  - unfold VMC.__init__. rewrite Hcb. by cbn.
Qed.

(** Any other wave function type is refused, after the model was built. *)
Lemma set_wf_other_type (backend : string) (log : bool) (rng : option (Z → Generator))
    (seed : Z) (alpha beta time_step diffusion_coeff : option Qc) (self : QS.t)
    (wf_type : string) (n d : nat) :
  QS.__init__ backend log rng (Some seed) alpha beta time_step diffusion_coeff = Ok self →
  wf_type ≠ "vmc" →
  QS.set_wf self wf_type n d = Raise ValueError.
Proof.
  intros Hinit Hty. apply QS_init_backend in Hinit as (Hb & Hback & Halpha & Hseed & _ & _).
  destruct (configure_backend_supported backend Hb) as [b Hcb].
  unfold QS.set_wf. rewrite Hback, Halpha, Hseed.
  rewrite (VMC_init_fields n d seed backend alpha None b Hcb).
  cbn [mbind result_bind]. unfold VMC._initialize_vars.
  cbn [VMC.set_dims VMC.params]. rewrite get_alpha_singleton.
  cbn [mbind result_bind]. by rewrite decide_False.
Qed.

(** [sample] needs the learning rate and the sampler: without either it
    raises an AttributeError. *)
Lemma sample_unset (self : QS.t) (nsamples nchains : nat) :
  QS._is_initialized_ self = true →
  QS._eta self = None ∨ QS.sampler self = None →
  QS.sample self nsamples nchains = Raise AttributeError.
Proof.
  intros Hi Hnone. unfold QS.sample, QS._is_initialized. rewrite Hi.
  cbn [mbind result_bind].
  destruct (QS._N self); [|done]. cbn [or_raise mbind result_bind].
  destruct (QS._dim self); [|done]. cbn [or_raise mbind result_bind].
  destruct (QS._eta self) eqn:He; [|done]. cbn [or_raise mbind result_bind].
  destruct (QS._training_cycles self); [|done]. cbn [or_raise mbind result_bind].
  destruct (QS._training_batch self); [|done]. cbn [or_raise mbind result_bind].
  destruct (QS.sampler self) eqn:Hs; [|done].
  by destruct Hnone.
Qed.

(** How [train] ends when the setup is incomplete, and on an empty loop:
    - before a successful [set_wf] it raises NotInitialized;
    - with [max_iter = 0] it succeeds without a sampler or an optimizer, and
      changes nothing but the training attributes and the trained flag;
    - with [max_iter >= 1] and no [set_optimizer] or no [set_sampler] it
      raises an AttributeError in the first iteration. *)
Lemma train_incomplete_setup (self : QS.t) (max_iter batch_size : nat) (seed : Z) :
  (QS._is_initialized_ self = false →
   QS.train self max_iter batch_size seed = Raise NotInitialized)
  ∧ (QS._is_initialized_ self = true → max_iter = 0%nat →
     ∃ self', QS.train self max_iter batch_size seed = Ok self'
              ∧ QS._is_trained_ self' = true
              ∧ QS.alpha self' = QS.alpha self ∧ QS.alg self' = QS.alg self
              ∧ QS._training_cycles self' = Some 0%nat
              ∧ QS._training_batch self' = Some batch_size)
  ∧ (QS._is_initialized_ self = true → (1 ≤ max_iter)%nat →
     QS._eta self = None ∨ QS.sampler self = None →
     QS.train self max_iter batch_size seed = Raise AttributeError).
Proof.
  unfold QS.train, QS._is_initialized. repeat split.
  - by intros ->.
  - intros -> ->. cbn [mbind result_bind QS.loop]. eexists. split; [reflexivity|].
    by cbn.
  - intros Hi Hm Hnone. rewrite Hi. cbn [mbind result_bind].
    destruct max_iter as [|k]; [lia|]. cbn [QS.loop].
    unfold QS.train_iteration.
    rewrite sample_unset; [done| by cbn | by cbn].
Qed.

(** [set_sampler("m")] cannot build the Metropolis sampler: the call passes
    eleven positional arguments to a constructor that takes ten. *)
Lemma set_sampler_metropolis (self : QS.t) (alg : VMC.t) (n d : nat) (scale : Qc) :
  QS.alg self = Some alg → QS._N self = Some n → QS._dim self = Some d →
  QS.set_sampler self "m" scale = Raise TypeError.
Proof. intros Ha Hn Hd. unfold QS.set_sampler. by rewrite Ha, Hn, Hd. Qed.

Lemma same_wiring_refl (self : QS.t) : same_wiring self self.
Proof. by repeat split. Qed.

Lemma same_wiring_trans (s1 s2 s3 : QS.t) :
  same_wiring s1 s2 → same_wiring s2 s3 → same_wiring s1 s3.
Proof.
  unfold same_wiring. intros H12 H23. destruct_and!. repeat split; congruence.
Qed.

Lemma train_iteration_same_wiring (self self' : QS.t) (batch_size : nat) :
  QS.train_iteration batch_size self = Ok self' →
  same_wiring self self'
  ∧ QS._training_cycles self' = QS._training_cycles self
  ∧ QS._training_batch self' = QS._training_batch self.
Proof.
  unfold QS.train_iteration, QS.sample.
  destruct (QS._is_initialized self); [|done]. cbn [mbind result_bind].
  repeat (match goal with
          | |- context [or_raise _ ?o] => destruct o eqn:?; [|done]
          end; cbn [or_raise mbind result_bind]).
  destruct (Sampler_sample _ _ _ _) as [[[st ps'] es']|]; [|done].
  cbn [mbind result_bind QS.alg QS.assign_alg or_raise].
  destruct (VMC.grads _ _); [|done]. cbn [mbind result_bind].
  cbn [QS._optimizer QS.assign_alg QS.alpha].
  repeat (match goal with
          | |- context [or_raise _ ?o] => destruct o eqn:?; [|done]
          end; cbn [or_raise mbind result_bind]).
  intros [= <-]. unfold same_wiring. cbn.
  repeat split; try done; try congruence.
  all: match goal with Ha : QS.alg _ = Some _ |- _ => by rewrite Ha end.
Qed.

Lemma loop_same_wiring (n : nat) (self self' : QS.t) (batch_size : nat) :
  QS.loop n (QS.train_iteration batch_size) self = Ok self' →
  same_wiring self self'
  ∧ QS._training_cycles self' = QS._training_cycles self
  ∧ QS._training_batch self' = QS._training_batch self.
Proof.
  revert self. induction n as [|n IH]; intros self; cbn [QS.loop].
  - intros [= <-]. split; [apply same_wiring_refl | done].
  - destruct (QS.train_iteration batch_size self) as [s1|] eqn:Hit; [|done].
    cbn [mbind result_bind]. intros Hl.
    apply train_iteration_same_wiring in Hit as (Hw1 & Hc1 & Hb1).
    apply IH in Hl as (Hw2 & Hc2 & Hb2).
    split; [by eapply same_wiring_trans | split; congruence].
Qed.

(** X10. A training run that returns has changed neither the setup (back end,
    Hamiltonian, sampler, optimizer, learning rate, sizes) nor the parameters
    of the model; it has set the trained flag and recorded its arguments. *)
Theorem train_same_wiring (self self' : QS.t) (max_iter batch_size : nat) (seed : Z) :
  QS.train self max_iter batch_size seed = Ok self' →
  same_wiring self self'
  ∧ QS._is_trained_ self' = true
  ∧ QS._training_cycles self' = Some max_iter
  ∧ QS._training_batch self' = Some batch_size.
Proof.
  unfold QS.train.
  destruct (QS._is_initialized self); [|done]. cbn [mbind result_bind].
  destruct (QS.loop _ _ _) as [s1|] eqn:Hl; [|done]. cbn [mbind result_bind].
  intros [= <-]. apply loop_same_wiring in Hl as (Hw & Hc & Hb).
  split; [|by cbn].
  eapply same_wiring_trans; [|eapply same_wiring_trans; [exact Hw|]].
  - by repeat split.
  - by repeat split.
Qed.

End life_cycle.

(** ** The sign of the log density *)

Lemma Qc_mul_nonneg (a b : Qc) : 0 ≤ a → 0 ≤ b → 0 ≤ a * b.
Proof.
  unfold Qcle. intros Ha Hb.
  change (0 <= Qred (this a * this b))%Q. rewrite Qred_correct.
  by apply Qmult_le_0_compat.
Qed.

Lemma Qc_square_nonneg (x : Qc) : 0 ≤ x * x.
Proof.
  unfold Qcle. change (0 <= Qred (this x * this x))%Q. rewrite Qred_correct.
  destruct (this x) as [num den]. unfold Qle. cbn. nia.
Qed.

Lemma vsum_squares_nonneg (row : Vector Qc) : 0 ≤ vsum (map (λ x, n_pow x 2) row).
Proof.
  induction row as [|x row IH]; [done|].
  cbn [map]. rewrite vsum_cons.
  rewrite <- (Qcplus_0_l 0). apply Qcplus_le_compat; [apply Qc_square_nonneg | done].
Qed.

(** X11. For [alpha > 0] no entry of the log density is positive: the
    density is at most 1.  ([alpha = 0] is left out: there the floating-point
    product with an overflowed sum of squares is not a number.) *)
Theorem prob_closure_nonpositive (r : Matrix Qc) (alpha : Qc) :
  0 < alpha → Forall (λ p, p ≤ 0) (VMC.prob_closure r alpha).
Proof.
  intros Ha%Qclt_le_weak. rewrite prob_closure_rowwise. apply Forall_fmap, Forall_forall.
  intros row _.
  change (2 * (- alpha * vsum (map (λ x : Qc, n_pow x 2) row)) ≤ 0).
  set (s := vsum (map (λ x : Qc, n_pow x 2) row)).
  assert (0 ≤ 2 * (alpha * s)) as Hpos.
  { apply Qc_mul_nonneg; [done|]. apply Qc_mul_nonneg; [done|].
    apply vsum_squares_nonneg. }
  apply Qcopp_le_compat in Hpos.
  replace (2 * (- alpha * s)) with (- (2 * (alpha * s))) by ring.
  replace (0 : Qc) with (- 0 : Qc) by ring.
  exact Hpos.
Qed.

(** ** The accept functions, stated for their callers *)

(** X12. [accept_numpy] on arrays of the shapes [step] passes: it returns, and row
    [i] of the new configuration and entry [i] of the new log density are
    those of the proposal where the mask holds and those of the current
    state elsewhere; the shapes are kept and the count grows by the number of
    accepted particles. *)
Theorem accept_numpy_row_by_row (n : Z) (N D : nat) (mask : list bool)
    (initial_positions proposed_positions : Matrix Qc)
    (log_psi_current log_psi_proposed : Vector Qc) :
  has_shape N D initial_positions → has_shape N D proposed_positions →
  length log_psi_current = N → length log_psi_proposed = N → length mask = N →
  ∃ new_positions new_logp,
    Metropolis.accept_numpy n (map (λ b, [b]) mask) initial_positions proposed_positions
      log_psi_current log_psi_proposed
    = Ok (new_positions, Arr1 new_logp, (n + count_accepted mask)%Z)
    ∧ has_shape N D new_positions
    ∧ length new_logp = N
    ∧ ∀ (i : nat) (b : bool), mask !! i = Some b →
        new_positions !! i
        = (if b then proposed_positions else initial_positions) !! i
        ∧ new_logp !! i = (if b then log_psi_proposed else log_psi_current) !! i.
Proof.
  intros Hi Hp Hc Hl Hm.
  exists (select_rows mask proposed_positions initial_positions),
         (select_rows mask log_psi_proposed log_psi_current).
  split; [by apply (accept_numpy_selects N D)|].
  split; [by apply select_rows_shape|].
  split; [by apply select_rows_length|].
  intros i b Hb.
  assert (i < N)%nat as HiN by (apply lookup_lt_Some in Hb; lia).
  destruct (lookup_lt_is_Some_2 proposed_positions i) as [x Hx]; [destruct Hp; lia|].
  destruct (lookup_lt_is_Some_2 initial_positions i) as [y Hy]; [destruct Hi; lia|].
  destruct (lookup_lt_is_Some_2 log_psi_proposed i) as [lx Hlx]; [lia|].
  destruct (lookup_lt_is_Some_2 log_psi_current i) as [ly Hly]; [lia|].
  rewrite (select_rows_lookup mask _ _ i b x y Hb Hx Hy).
  rewrite (select_rows_lookup mask _ _ i b lx ly Hb Hlx Hly).
  by destruct b.
Qed.

Lemma accept_numpy_row_by_row_witness :
  ∃ new_positions new_logp,
    Metropolis.accept_numpy 5 (map (λ b, [b]) [true; false]) [[1]; [2]]
      [[Qc_of_Z 10]; [Qc_of_Z 20]] [- 1; - 2] [Qc_of_Z (-3); Qc_of_Z (-4)]
    = Ok (new_positions, Arr1 new_logp, (5 + count_accepted [true; false])%Z)
    ∧ has_shape 2 1 new_positions
    ∧ length new_logp = 2%nat
    ∧ ∀ (i : nat) (b : bool), [true; false] !! i = Some b →
        new_positions !! i
        = (if b then [[Qc_of_Z 10]; [Qc_of_Z 20]] else [[1]; [2]]) !! i
        ∧ new_logp !! i
          = (if b then [Qc_of_Z (-3); Qc_of_Z (-4)] else [- 1; - 2]) !! i.
Proof.
  apply (accept_numpy_row_by_row 5 2 1 [true; false] [[1]; [2]]
           [[Qc_of_Z 10]; [Qc_of_Z 20]] [- 1; - 2] [Qc_of_Z (-3); Qc_of_Z (-4)]).
  - split; [reflexivity | repeat constructor].
  - split; [reflexivity | repeat constructor].
  - reflexivity.
  - reflexivity.
  - reflexivity.
Defined.

(** X13. Whatever the number of particles, [accept_jax] returns a configuration
    of one row and the number of particles accepted in this call, without the
    count it was given. *)
Theorem accept_jax_returns_one_row (n : Z) (b : bool) (mask : list bool)
    (initial_positions proposed_positions new_positions : Matrix Qc)
    (log_psi_current log_psi_proposed : Vector Qc) (new_logp : ndarray) (count : Z) :
  Metropolis.accept_jax n (map (λ b, [b]) (b :: mask)) initial_positions
    proposed_positions log_psi_current log_psi_proposed
  = Ok (new_positions, new_logp, count) →
  length new_positions = 1%nat ∧ count = count_accepted (b :: mask).
Proof. apply accept_jax_one_row. Qed.

Lemma accept_jax_returns_one_row_witness :
  length [[Qc_of_Z 12]] = 1%nat ∧ 1%Z = count_accepted [true; false].
Proof.
  apply (accept_jax_returns_one_row 5 true [false] [[1]; [2]]
           [[Qc_of_Z 10]; [Qc_of_Z 20]] [[Qc_of_Z 12]] [- 1; - 2]
           [Qc_of_Z (-3); Qc_of_Z (-4)]
           (Arr2 [[Qc_of_Z (-3); Qc_of_Z (-4)]; [- 1; - 2]]) 1).
  compute_done.
Defined.

Lemma accept_jax_one_particle_witness :
  Metropolis.accept_jax 5 [[true]] [[1; 2]] [[Qc_of_Z 10; Qc_of_Z 20]] [- 1] [- 2]
  = Ok ([[Qc_of_Z 10; Qc_of_Z 20]], Arr2 [[- 2]], 1%Z).
Proof.
  apply (accept_jax_one_particle 5 true [1; 2] [Qc_of_Z 10; Qc_of_Z 20] (- 1) (- 2)).
  reflexivity.
Defined.

(** ** Witnesses and statements for the users of the model *)

Lemma step_numpy_keeps_state_consistent_witness :
  ∃ new_state,
    @Metropolis.step _ Example.sampler_lib Example.numpy_sampler 5
      (VMC.prob Example.model) Example.state1 142 = Ok new_state
    ∧ has_shape 2 3 (positions new_state)
    ∧ logp new_state = Arr1 (VMC.prob_closure (positions new_state) (Q2Qc (1 # 2))).
Proof.
  apply (@step_numpy_keeps_state_consistent _ Example.sampler_lib Example.numpy_sampler
           Example.model (Q2Qc (1 # 2)) 5 Example.state1 142 2 3).
  - reflexivity.
  - reflexivity.
  - split; [reflexivity | repeat constructor].
Defined.

Section numpy_step_counters.
Context `{SamplerLib}.

(** X14. One step of a sampler bound to [accept_numpy] succeeds and raises the
    count of accepted particles by at least 0 and at most the number of
    particles, and the step index by one. *)
Theorem step_numpy_count_bounds (self : Metropolis.t) (n : Z)
    (wf_squared : Matrix Qc → result (Vector Qc)) (state : State) (seed : Z) (N D : nat) :
  Metropolis.accept_fn self = Some Metropolis.accept_numpy_fn →
  (∀ r, ∃ v, wf_squared r = Ok v ∧ length v = length r) →
  has_shape N D (positions state) →
  ∃ new_state,
    Metropolis.step self n wf_squared state seed = Ok new_state
    ∧ (n ≤ n_accepted new_state ≤ n + Z.of_nat N)%Z
    ∧ delta new_state = (delta state + 1)%Z.
Proof.
  intros Hfn Hwf Hshape.
  destruct (step_numpy_composes self n wf_squared state seed N D Hfn Hwf Hshape)
    as (P & pc & pp & mask & _ & Hlen & Hstep).
  eexists. split; [exact Hstep|].
  by eapply step_numpy_counters.
Qed.

(** X15. A sampler whose [accept_fn] was never bound raises an AttributeError in
    every step, whatever the state, once the log density has been evaluated
    on the current and the proposed configuration. *)
Theorem step_unbound_accept_fn_raises (self : Metropolis.t) (n : Z)
    (wf_squared : Matrix Qc → result (Vector Qc)) (state : State) (seed : Z) :
  Metropolis.accept_fn self = None →
  (∀ r, ∃ v, wf_squared r = Ok v ∧ length v = length r) →
  Metropolis.step self n wf_squared state seed = Raise AttributeError.
Proof. apply step_without_accept_fn. Qed.

End numpy_step_counters.

Lemma step_numpy_count_bounds_witness :
  ∃ new_state,
    @Metropolis.step _ Example.sampler_lib Example.numpy_sampler 5
      (VMC.prob Example.model) Example.state0 142 = Ok new_state
    ∧ (5 ≤ n_accepted new_state ≤ 5 + Z.of_nat 2)%Z
    ∧ delta new_state = (delta Example.state0 + 1)%Z.
Proof.
  apply (@step_numpy_count_bounds _ Example.sampler_lib Example.numpy_sampler 5
           (VMC.prob Example.model) Example.state0 142 2 3).
  - reflexivity.
  - apply Example_prob_total.
  - split; [reflexivity | repeat constructor].
Defined.

Lemma step_unbound_accept_fn_raises_witness :
  @Metropolis.step _ Example.sampler_lib
    (Example.sampler "Numpy" None ["back end not supported !!!!!!"]) 0
    (VMC.prob Example.model) Example.state0 142
  = Raise AttributeError.
Proof.
  apply (@step_unbound_accept_fn_raises _ Example.sampler_lib
           (Example.sampler "Numpy" None ["back end not supported !!!!!!"]) 0
           (VMC.prob Example.model) Example.state0 142).
  - reflexivity.
  - apply Example_prob_total.
Defined.

(** X16. The autodiff Laplacian takes one particle only: on an (N, D) array with
    N other than 1, on a model of dimension D > 0, it raises at its
    [reshape(1, d)]. *)
Theorem laplacian_closure_jax_one_particle_only (self : VMC.t) (N D : nat)
    (r : Matrix Qc) (alpha : Qc) :
  has_shape N D r → VMC._dim self = D → (0 < D)%nat → N ≠ 1%nat →
  VMC.laplacian_closure_jax self r alpha = Raise ShapeError.
Proof.
  intros Hs Hdim HD HN.
  by apply (laplacian_closure_jax_raises_for_many_particles self N D r alpha).
Qed.

Lemma laplacian_closure_jax_one_particle_only_witness :
  VMC.laplacian_closure_jax
    (VMC.mk jax {[ "alpha" := [Q2Qc (1 # 2)] ]} None 142 2 3 None)
    [[1; 2; Q2Qc 3]; [0; 1; - 1]] (Q2Qc (1 # 2)) = Raise ShapeError.
Proof.
  apply (laplacian_closure_jax_one_particle_only _ 2 3).
  - split; [reflexivity | repeat constructor].
  - reflexivity.
  - lia.
  - lia.
Defined.

(** X17. For one particle, on a model of dimension d > 0 that holds alpha, the
    autodiff Laplacian called with that alpha returns what the analytic
    Laplacian returns, on either back end. *)
Theorem laplacian_backends_agree_on_one_particle (self : VMC.t) (row : Vector Qc)
    (alpha : Qc) :
  length row = VMC._dim self → (0 < VMC._dim self)%nat →
  VMC.get_alpha (VMC.params self) = Ok alpha →
  VMC.laplacian_closure_jax self [row] alpha = VMC.laplacian_closure self [row] alpha
  ∧ VMC.laplacian_closure self [row] alpha
    = Ok (Qc_of_Z 4 * (alpha * alpha) * vsum (map (λ x, x * x) row)
          - 2 * alpha * VMC.of_nat (length row)).
Proof.
  intros Hlen Hd Ha. split; [by apply laplacian_closures_agree_one_particle|].
  assert (concat [row] = row) as Hflat by (cbn; apply app_nil_r).
  rewrite laplacian_closure_any_grouping_value.
  - by rewrite Hflat.
  - lia.
  - rewrite Hflat, Hlen. apply Nat.Div0.mod_same.
Qed.

Lemma laplacian_backends_agree_on_one_particle_witness :
  VMC.laplacian_closure_jax
    (VMC.mk jax {[ "alpha" := [Q2Qc (1 # 2)] ]} None 142 1 3 None)
    [[1; 2; Q2Qc 3]] (Q2Qc (1 # 2))
  = VMC.laplacian_closure
      (VMC.mk jax {[ "alpha" := [Q2Qc (1 # 2)] ]} None 142 1 3 None)
      [[1; 2; Q2Qc 3]] (Q2Qc (1 # 2))
  ∧ VMC.laplacian_closure
      (VMC.mk jax {[ "alpha" := [Q2Qc (1 # 2)] ]} None 142 1 3 None)
      [[1; 2; Q2Qc 3]] (Q2Qc (1 # 2))
    = Ok (Qc_of_Z 4 * (Q2Qc (1 # 2) * Q2Qc (1 # 2))
            * vsum (map (λ x, x * x) [1; 2; Q2Qc 3])
          - 2 * Q2Qc (1 # 2) * VMC.of_nat (length [1; 2; Q2Qc 3])).
Proof.
  apply laplacian_backends_agree_on_one_particle.
  - reflexivity.
  - cbn. lia.
  - reflexivity.
Defined.

(** X18. A non-zero [alpha] given to the constructor is the one stored, on both
    supported back ends; the constructed model has no chain state yet (the
    placeholder 0) and no [beta] unless a truthy one was given. *)
Theorem truthy_alpha_is_stored `{JaxRandom} (n d : nat) (seed : Z) (backend : string)
    (a : Qc) (beta : option Qc) :
  backend = "numpy" ∨ backend = "jax" → a ≠ 0 →
  ∃ self, VMC.__init__ n d (Some seed) backend (Some a) beta = Ok self
          ∧ VMC.params self !! "alpha" = Some [a]
          ∧ VMC.state self = None
          ∧ VMC.beta self = (if VMC.truthy beta then beta else None).
Proof.
  intros Hb Ha. destruct (configure_backend_supported backend Hb) as [b Hcb].
  eexists. split; [by apply VMC_init_fields|]. cbn.
  rewrite bool_decide_eq_true_2 by done. by rewrite lookup_singleton_eq.
Qed.

Lemma truthy_alpha_is_stored_witness :
  ∃ self, @VMC.__init__ Example.jax_random 4 3 (Some 142%Z) "numpy" (Some (Q2Qc (1 # 5))) None
          = Ok self
          ∧ VMC.params self !! "alpha" = Some [Q2Qc (1 # 5)]
          ∧ VMC.state self = None
          ∧ VMC.beta self = (if VMC.truthy None then None else None).
Proof.
  apply (@truthy_alpha_is_stored Example.jax_random 4 3 142 "numpy" (Q2Qc (1 # 5)) None).
  - left. reflexivity.
  - compute_done.
Defined.

Lemma VMC_init_unsupported_backend_witness :
  @VMC.__init__ Example.jax_random 4 3 None "torch" None None = Raise AttributeError
  ∧ ∀ b, VMC._configure_backend (Some b) "torch" = Raise ValueError.
Proof.
  apply (@VMC_init_unsupported_backend Example.jax_random 4 3 None "torch" None None).
  - compute_done.
  - compute_done.
Defined.

Section elliptic.
Context `{JaxRandom}.

(** X19. A model constructed without a truthy [beta] (the only kind [QS.set_wf]
    constructs) has no attribute [beta]: [wf_eo] raises an AttributeError on
    every configuration. *)
Theorem wf_eo_needs_beta (n d : nat) (seed : Z) (backend : string) (alpha beta : option Qc)
    (r : Matrix Qc) :
  backend = "numpy" ∨ backend = "jax" →
  VMC.truthy beta = false →
  (self ← VMC.__init__ n d (Some seed) backend alpha beta; VMC.wf_eo self r)
  = Raise AttributeError.
Proof.
  intros Hb Hbeta.
  destruct (configure_backend_supported backend Hb) as [b Hcb].
  rewrite (VMC_init_fields n d seed backend alpha beta b Hcb).
  cbn [mbind result_bind].
  eapply wf_eo_without_beta; [|exact Hbeta].
  apply (VMC_init_fields n d seed backend alpha beta b Hcb).
Qed.

End elliptic.

Lemma wf_eo_needs_beta_witness :
  (self ← @VMC.__init__ Example.jax_random 2 3 (Some 142%Z) "numpy" None (Some 0);
   VMC.wf_eo self [[1; 0; 0]; [0; 1; - 1]])
  = Raise AttributeError.
Proof.
  apply (@wf_eo_needs_beta Example.jax_random 2 3 142 "numpy" None (Some 0)).
  - left. reflexivity.
  - reflexivity.
Defined.

Lemma wf_closure_eo_isotropic_one_particle_witness :
  VMC.wf_closure_eo
    (VMC.mk numpy {[ "alpha" := [Q2Qc (1 # 2)] ]} (Some 1) 142 1 3 None)
    [[1; 2; Q2Qc 3]] (Q2Qc (1 # 2))
  = Ok (VMC.wf_closure [[1; 2; Q2Qc 3]] (Q2Qc (1 # 2))).
Proof.
  apply wf_closure_eo_isotropic_one_particle. reflexivity.
Defined.

Lemma prob_closure_nonpositive_witness :
  Forall (λ p, p ≤ 0) (VMC.prob_closure [[1; 0; 0]; [0; 1; - 1]] (Q2Qc (1 # 2))).
Proof. apply prob_closure_nonpositive. compute_done. Defined.

Section setup_names.
Context `{Collaborators} `{!JaxRandom}.

(** X20. A name that none of the setup operations knows is refused by each of
    them at once with a ValueError: by the constructor as a back end, and,
    once [set_wf] has built the model, by [set_hamiltonian], [set_sampler]
    and [set_optimizer]. *)
Theorem QS_rejects_unknown_names (self : QS.t) (alg : VMC.t) (name : string)
    (log : bool) (rng : option (Z → Generator)) (seed : option Z)
    (alpha beta time_step diffusion_coeff : option Qc) (int_type : string) (scale eta : Qc) :
  name ∉ ["numpy"; "jax"; "ho"; "eo"; "m"; "mh"; "gd"] →
  QS.alg self = Some alg →
  QS.__init__ name log rng seed alpha beta time_step diffusion_coeff = Raise ValueError
  ∧ QS.set_hamiltonian self name int_type = Raise ValueError
  ∧ QS.set_sampler self name scale = Raise ValueError
  ∧ QS.set_optimizer self name eta = Raise ValueError.
Proof.
  intros Hname Halg.
  destruct (QS_setup_rejects_unsupported_names self name) as (Hi & Hh & Hs & Ho).
  rewrite !not_elem_of_cons in Hname. destruct_and!.
  rewrite Hi, Hh, Hs, Ho by done. by rewrite Halg.
Qed.

(** X21. With [max_iter >= 1], [train] on an initialized object without
    [set_optimizer] or without [set_sampler] raises an AttributeError in its
    first iteration, before anything is sampled. *)
Theorem train_needs_optimizer_and_sampler (self : QS.t) (max_iter batch_size : nat)
    (seed : Z) :
  QS._is_initialized_ self = true → (1 ≤ max_iter)%nat →
  QS._eta self = None ∨ QS.sampler self = None →
  QS.train self max_iter batch_size seed = Raise AttributeError.
Proof. apply train_incomplete_setup. Qed.

(** X22. With [max_iter = 0], [train] on an initialized object returns without a
    sampler or an optimizer; it sets the trained flag and the training
    attributes and leaves alpha and the model as they were. *)
Theorem train_zero_iterations (self : QS.t) (batch_size : nat) (seed : Z) :
  QS._is_initialized_ self = true →
  ∃ self', QS.train self 0 batch_size seed = Ok self'
           ∧ QS._is_trained_ self' = true
           ∧ QS.alpha self' = QS.alpha self ∧ QS.alg self' = QS.alg self
           ∧ QS._training_cycles self' = Some 0%nat
           ∧ QS._training_batch self' = Some batch_size.
Proof.
  intros Hi.
  by apply (proj1 (proj2 (train_incomplete_setup self 0 batch_size seed)) Hi).
Qed.

End setup_names.

Lemma QS_rejects_unknown_names_witness :
  @QS.__init__ _ Example.collaborators "torch" false None (Some 142%Z) None None None None
  = Raise ValueError
  ∧ QS.set_hamiltonian Example.initialized "torch" "None" = Raise ValueError
  ∧ QS.set_sampler Example.initialized "torch" 1 = Raise ValueError
  ∧ QS.set_optimizer Example.initialized "torch" 1 = Raise ValueError.
Proof.
  apply (@QS_rejects_unknown_names _ Example.collaborators Example.initialized
           (default Example.model (QS.alg Example.initialized)) "torch").
  - compute_done.
  - reflexivity.
Defined.

Lemma train_needs_optimizer_and_sampler_witness :
  QS.train Example.initialized 1 1 142 = Raise AttributeError.
Proof.
  apply (@train_needs_optimizer_and_sampler _ Example.collaborators Example.initialized 1 1 142).
  - reflexivity.
  - lia.
  - left. reflexivity.
Defined.

Lemma train_zero_iterations_witness :
  ∃ self', QS.train Example.initialized 0 1 142 = Ok self'
           ∧ QS._is_trained_ self' = true
           ∧ QS.alpha self' = QS.alpha Example.initialized
           ∧ QS.alg self' = QS.alg Example.initialized
           ∧ QS._training_cycles self' = Some 0%nat
           ∧ QS._training_batch self' = Some 1%nat.
Proof.
  apply (@train_zero_iterations _ Example.collaborators Example.initialized 1 142).
  reflexivity.
Defined.

Lemma set_wf_after_init_witness :
  ∃ self' alg s,
    @QS.set_wf _ Example.collaborators Example.jax_random Example.blank "vmc" 2 3 = Ok self'
    ∧ QS._is_initialized_ self' = true
    ∧ QS._N self' = Some 2%nat ∧ QS._dim self' = Some 3%nat
    ∧ QS.alg self' = Some alg
    ∧ VMC.params alg = {[ "alpha" := [stored_alpha None] ]}
    ∧ QS.alpha self' = Some (Arr1 [stored_alpha None])
    ∧ VMC._N alg = 2%nat ∧ VMC._dim alg = 3%nat
    ∧ VMC.state alg = Some s
    ∧ logp s = Arr1 (VMC.prob_closure (positions s) (stored_alpha None))
    ∧ n_accepted s = 0%Z ∧ delta s = 0%Z.
Proof.
  apply (@set_wf_after_init _ Example.collaborators Example.jax_random "numpy" false None
           (Some 142%Z) None None None None Example.blank 2 3).
  reflexivity.
Defined.

Lemma train_same_wiring_witness :
  ∃ self', QS.train Example.ready 1 1 142 = Ok self'
           ∧ same_wiring Example.ready self'
           ∧ QS._is_trained_ self' = true
           ∧ QS._training_cycles self' = Some 1%nat
           ∧ QS._training_batch self' = Some 1%nat.
Proof.
  destruct (QS.train Example.ready 1 1 142) as [s|e] eqn:Hs.
  - exists s. split; [reflexivity|].
    exact (@train_same_wiring _ Example.collaborators Example.ready s 1 1 142 Hs).
  - exfalso.
    assert (match QS.train Example.ready 1 1 142 with Ok _ => true | Raise _ => false end
            = true) as Hr by (vm_compute; reflexivity).
    rewrite Hs in Hr. discriminate Hr.
Defined.
